(** * AI Business Consultant API: a shallow embedding of [main.py]

    The development follows the layout of the source file:
    - [Text]: the Python string operations the code relies on
      ([str.lower], [str.title], [str.join]);
    - [Bson]: the values held by documents ([ObjectId], [datetime],
      scalars, lists and dicts) and Python's dict operations;
    - [serialize_doc], the schemas, [generate_advice];
    - [Database]: the store adapter the handlers call;
    - [Routes]: the request handlers, written in a state-and-outcome monad.

    Text is held as [string], the bytes of its UTF-8 encoding. Lengths
    and slices count characters ([Text.len], [Text.take]), as Python's do.
    [Text.lower] and [Text.title] map the ASCII letters and leave every
    other byte as it is: on text with cased letters outside ASCII they
    differ from [str.lower] and [str.title]. The keys of the stage table
    are ASCII and no letter outside ASCII lowers to one of their letters,
    so the choice of the topic list is the code's for every stage. *)

From Stdlib Require Import List String Ascii Bool NArith ZArith Lia.
Import ListNotations.
Open Scope string_scope.

Set Warnings "-register-all".

(* ------------------------------------------------------------------ *)
(** ** Python string operations *)

Module Text.

Definition nl : string := String (ascii_of_nat 10) EmptyString.

Definition is_upper (c : ascii) : bool :=
  let n := nat_of_ascii c in (65 <=? n)%nat && (n <=? 90)%nat.

Definition is_lower (c : ascii) : bool :=
  let n := nat_of_ascii c in (97 <=? n)%nat && (n <=? 122)%nat.

Definition is_cased (c : ascii) : bool := is_upper c || is_lower c.

Definition to_lower (c : ascii) : ascii :=
  if is_upper c then ascii_of_nat (nat_of_ascii c + 32) else c.

Definition to_upper (c : ascii) : ascii :=
  if is_lower c then ascii_of_nat (nat_of_ascii c - 32) else c.

(** [s.lower()], on the ASCII letters; every other byte is kept. *)
Fixpoint lower (s : string) : string :=
  match s with
  | EmptyString => EmptyString
  | String c s' => String (to_lower c) (lower s')
  end.

(** [s.title()], on the ASCII letters: a character that follows a cased
    character is lowered, any other is title-cased; [previous_is_cased]
    tracks the former. Every byte that is not an ASCII letter is kept and
    counts as uncased. *)
Fixpoint title_from (previous_is_cased : bool) (s : string) : string :=
  match s with
  | EmptyString => EmptyString
  | String c s' =>
      let c' := if previous_is_cased then to_lower c else to_upper c in
      String c' (title_from (is_cased c) s')
  end.

Definition title (s : string) : string := title_from false s.

(** A byte that continues a UTF-8 character, [10xxxxxx]. *)
Definition is_continuation (c : ascii) : bool :=
  let n := nat_of_ascii c in (128 <=? n)%nat && (n <=? 191)%nat.

(** [len(s)]: the characters of [s], one for each byte that starts one. *)
Fixpoint len (s : string) : nat :=
  match s with
  | EmptyString => O
  | String c s' => if is_continuation c then len s' else S (len s')
  end.

(** [s[:n]]: the first [n] characters of [s], each with the bytes that
    continue it. *)
Fixpoint take (n : nat) (s : string) : string :=
  match s with
  | EmptyString => EmptyString
  | String c s' =>
      if is_continuation c then String c (take n s')
      else match n with
           | O => EmptyString
           | S n' => String c (take n' s')
           end
  end.

(** [sep.join(parts)] *)
Fixpoint join (sep : string) (parts : list string) : string :=
  match parts with
  | [] => EmptyString
  | [p] => p
  | p :: rest => p ++ sep ++ join sep rest
  end.

End Text.

(* ------------------------------------------------------------------ *)
(** ** Document values *)

Module Bson.

(** *** ObjectId: twelve bytes, written as 24 hexadecimal digits *)

Definition oid := N.
Bind Scope N_scope with oid.

Definition oid_space : N := 2 ^ 96.

Definition hex_digit (d : N) : ascii :=
  match String.get (N.to_nat d) "0123456789abcdef" with
  | Some c => c
  | None => "0"%char
  end.

Definition hex_val (c : ascii) : option N :=
  let n := N.of_nat (nat_of_ascii c) in
  if (48 <=? n)%N && (n <=? 57)%N then Some (n - 48)%N
  else if (97 <=? n)%N && (n <=? 102)%N then Some (n - 87)%N
  else if (65 <=? n)%N && (n <=? 70)%N then Some (n - 55)%N
  else None.

(** The [k] low hexadecimal digits of [n], most significant first, put in
    front of [rest]. *)
Fixpoint to_hex (k : nat) (n : N) (rest : string) : string :=
  match k with
  | O => rest
  | S k' => to_hex k' (n / 16)%N (String (hex_digit (n mod 16)%N) rest)
  end.

Fixpoint of_hex (s : string) (acc : N) : option N :=
  match s with
  | EmptyString => Some acc
  | String c s' =>
      match hex_val c with
      | Some d => of_hex s' (16 * acc + d)%N
      | None => None
      end
  end.

(** [str(oid)] *)
Definition oid_str (o : oid) : string := to_hex 24 o EmptyString.

(** [Py_ISSPACE]: tab, line feed, vertical tab, form feed, carriage return
    and space. *)
Definition is_space (c : ascii) : bool :=
  let n := nat_of_ascii c in
  ((9 <=? n)%nat && (n <=? 13)%nat) || (n =? 32)%nat.

(** [bytes.fromhex(s)]: one byte for each pair of hexadecimal digits, in
    either letter case; ASCII whitespace in front of a pair is skipped.
    [None] stands for [ValueError]. *)
Fixpoint fromhex (s : string) : option (list N) :=
  match s with
  | EmptyString => Some []
  | String c rest =>
      if is_space c then fromhex rest
      else
        match hex_val c, rest with
        | Some top, String c' rest' =>
            match hex_val c' with
            | Some bot =>
                match fromhex rest' with
                | Some bytes => Some ((16 * top + bot)%N :: bytes)
                | None => None
                end
            | None => None
            end
        | _, _ => None
        end
  end.

(** The number that the bytes write, most significant first. *)
Definition be_value (bytes : list N) : N :=
  fold_left (fun acc b => (256 * acc + b)%N) bytes 0%N.

(** What [ObjectId(s)] holds: the twelve bytes of an identifier, or the
    fewer bytes that [fromhex] made of 24 characters some of which were
    whitespace. *)
Inductive object_id : Type :=
| Whole (o : oid)
| Short (bytes : list N).

(** [ObjectId(s)] for a [str] argument: the string must have 24
    characters and [bytes.fromhex] must accept it. [None] stands for the
    [InvalidId] exception. *)
Definition ObjectId_str (s : string) : option object_id :=
  if (Text.len s =? 24)%nat then
    match fromhex s with
    | Some bytes =>
        Some (if (List.length bytes =? 12)%nat
              then Whole (be_value bytes) else Short bytes)
    | None => None
    end
  else None.

(** The twelve-byte identifier that [ObjectId(s)] holds, when it holds
    one. *)
Definition ObjectId (s : string) : option oid :=
  match ObjectId_str s with
  | Some (Whole o) => Some o
  | _ => None
  end.

(** *** datetime *)

Record datetime : Type := mk_datetime {
  year : N; month : N; day : N;
  hour : N; minute : N; second : N; microsecond : N
}.

Definition digit (d : N) : ascii := ascii_of_N (48 + d mod 10).

Fixpoint zero_padded (width : nat) (n : N) (rest : string) : string :=
  match width with
  | O => rest
  | S w => zero_padded w (n / 10)%N (String (digit n) rest)
  end.

(** [d.isoformat()] of a naive datetime:
    [YYYY-MM-DDTHH:MM:SS], followed by [.ffffff] when the microsecond
    field is not zero. *)
Definition isoformat (d : datetime) : string :=
  zero_padded 4 (year d) ("-" ++
  zero_padded 2 (month d) ("-" ++
  zero_padded 2 (day d) ("T" ++
  zero_padded 2 (hour d) (":" ++
  zero_padded 2 (minute d) (":" ++
  zero_padded 2 (second d)
    (if (microsecond d =? 0)%N then EmptyString
     else "." ++ zero_padded 6 (microsecond d) EmptyString)))))).

(** *** Values *)

Inductive value : Type :=
| VNone
| VBool (b : bool)
| VInt (z : Z)
| VStr (s : string)
| VObjectId (o : oid)
| VDatetime (d : datetime)
| VList (items : list value)
| VDict (items : list (string * value)).

Definition dict : Type := list (string * value).

Definition datetime_eqb (a b : datetime) : bool :=
  (year a =? year b)%N && (month a =? month b)%N && (day a =? day b)%N &&
  (hour a =? hour b)%N && (minute a =? minute b)%N &&
  (second a =? second b)%N && (microsecond a =? microsecond b)%N.

(** Python's [==] on values. *)
Fixpoint value_eqb (a b : value) {struct a} : bool :=
  let fix list_eqb (l1 l2 : list value) {struct l1} : bool :=
    match l1, l2 with
    | [], [] => true
    | x :: l1', y :: l2' => value_eqb x y && list_eqb l1' l2'
    | _, _ => false
    end in
  let fix items_eqb (l1 l2 : list (string * value)) {struct l1} : bool :=
    match l1, l2 with
    | [], [] => true
    | (k1, x) :: l1', (k2, y) :: l2' =>
        String.eqb k1 k2 && value_eqb x y && items_eqb l1' l2'
    | _, _ => false
    end in
  match a, b with
  | VNone, VNone => true
  | VBool x, VBool y => Bool.eqb x y
  | VInt x, VInt y => (x =? y)%Z
  | VStr x, VStr y => String.eqb x y
  | VObjectId x, VObjectId y => (x =? y)%N
  | VDatetime x, VDatetime y => datetime_eqb x y
  | VList x, VList y => list_eqb x y
  | VDict x, VDict y => items_eqb x y
  | _, _ => false
  end.

(** *** Python dict operations, on insertion-ordered items *)

(** [d.get(k)] *)
Fixpoint dict_get (d : dict) (k : string) : option value :=
  match d with
  | [] => None
  | (k', v) :: d' => if String.eqb k' k then Some v else dict_get d' k
  end.

(** [d.get(k, default)] *)
Definition dict_get_default (d : dict) (k : string) (default : value) : value :=
  match dict_get d k with
  | Some v => v
  | None => default
  end.

(** [d[k] = v]: an existing key keeps its place, a new one goes last. *)
Fixpoint dict_set (d : dict) (k : string) (v : value) : dict :=
  match d with
  | [] => [(k, v)]
  | (k', v') :: d' =>
      if String.eqb k' k then (k', v) :: d' else (k', v') :: dict_set d' k v
  end.

(** The dict left by [d.pop(k)]. *)
Fixpoint dict_remove (d : dict) (k : string) : dict :=
  match d with
  | [] => []
  | (k', v) :: d' => if String.eqb k' k then d' else (k', v) :: dict_remove d' k
  end.

(** [d.pop(k)]: the value and the remaining dict, [None] for [KeyError]. *)
Definition dict_pop (d : dict) (k : string) : option (value * dict) :=
  match dict_get d k with
  | Some v => Some (v, dict_remove d k)
  | None => None
  end.

(** Truthiness of a fetched document: [not it] holds for [None] and for
    the empty dict. *)
Definition falsy (it : option dict) : bool :=
  match it with
  | None => true
  | Some [] => true
  | Some (_ :: _) => false
  end.

End Bson.

Import Bson.

(* ------------------------------------------------------------------ *)
(** ** Utility: BSON/Datetime serialization *)

Fixpoint _convert (value : value) : Bson.value :=
  match value with
  | VObjectId o => VStr (oid_str o)
  | VDatetime d => VStr (isoformat d)
  | VList items => VList (map _convert items)
  | VDict items => VDict (map (fun kv => (fst kv, _convert (snd kv))) items)
  | _ => value
  end.

Definition serialize_doc (doc : dict) : dict :=
  map (fun kv => (fst kv, _convert (snd kv))) doc.

(** [serialize_doc] applied to whatever [find_one] returned: [None] passes
    through [_convert] unchanged. *)
Definition serialize_found (saved : option dict) : option dict :=
  option_map serialize_doc saved.

(* ------------------------------------------------------------------ *)
(** ** Schemas *)

Record ConsultationCreate : Type := mk_ConsultationCreate {
  business_name : string;
  industry : string;
  stage : string;
  goal : string;
  notes : option string
}.

Record MessageIn : Type := mk_MessageIn {
  content : string
}.

Module Schema.

(** A required [str] field. *)
Definition required_str (data : dict) (k : string) : option string :=
  match dict_get data k with
  | Some (VStr s) => Some s
  | _ => None
  end.

(** A [str] field with a default. *)
Definition default_str (data : dict) (k : string) (default : string)
  : option string :=
  match dict_get data k with
  | None => Some default
  | Some (VStr s) => Some s
  | Some _ => None
  end.

(** An [Optional[str]] field whose default is [None]. *)
Definition optional_str (data : dict) (k : string) : option (option string) :=
  match dict_get data k with
  | None => Some None
  | Some VNone => Some None
  | Some (VStr s) => Some (Some s)
  | Some _ => None
  end.

(** Validation of the fields of [ConsultationCreate], for a request body
    as for keyword arguments; [None] is a validation error. *)
Definition ConsultationCreate_validate (data : dict)
  : option ConsultationCreate :=
  match required_str data "business_name",
        required_str data "industry",
        default_str data "stage" "idea",
        required_str data "goal",
        optional_str data "notes" with
  | Some b, Some i, Some s, Some g, Some n =>
      Some (mk_ConsultationCreate b i s g n)
  | _, _, _, _, _ => None
  end.

(** [payload.model_dump()] *)
Definition model_dump (payload : ConsultationCreate) : dict :=
  [ ("business_name", VStr (business_name payload));
    ("industry", VStr (industry payload));
    ("stage", VStr (stage payload));
    ("goal", VStr (goal payload));
    ("notes", match notes payload with Some s => VStr s | None => VNone end) ].

(** [content: str = Field(..., min_length=1, max_length=4000)] *)
Definition MessageIn_validate (data : dict) : option MessageIn :=
  match required_str data "content" with
  | Some s =>
      if (1 <=? Text.len s)%nat && (Text.len s <=? 4000)%nat
      then Some (mk_MessageIn s)
      else None
  | None => None
  end.

End Schema.

(* ------------------------------------------------------------------ *)
(** ** Simple Advisor Logic *)

Import Text.

Definition stage_focus : list (string * list string) :=
  [ ("idea",
     [ "Problem validation"; "Customer discovery";
       "Value proposition"; "Competitive scan" ]);
    ("mvp",
     [ "MVP scope"; "Success metrics"; "Go-to-market"; "Pricing hypothesis" ]);
    ("growth",
     [ "Acquisition channels"; "Retention levers";
       "Unit economics"; "Sales pipeline" ]);
    ("scale",
     [ "Org design"; "Process/automation";
       "Internationalization"; "Risk & compliance" ]) ].

Fixpoint table_get (table : list (string * list string)) (k : string)
  : option (list string) :=
  match table with
  | [] => None
  | (k', v) :: rest => if String.eqb k' k then Some v else table_get rest k
  end.

(** [stage_focus["idea"]] *)
Definition idea_focus : list string :=
  match table_get stage_focus "idea" with
  | Some l => l
  | None => []
  end.

(** [stage_focus.get(stage, stage_focus["idea"])] *)
Definition focus_of (stage : string) : list string :=
  match table_get stage_focus stage with
  | Some l => l
  | None => idea_focus
  end.

Definition bullets_of (focus : list string) : string :=
  join nl
    (map (fun topic =>
            "- " ++ topic ++
            ": Consider 1-2 experiments this week to validate assumptions.")
         focus).

Definition next_steps : string :=
  "1) Define a one-sentence goal for the next 7 days" ++ nl ++
  "2) Pick one channel to test (e.g., LinkedIn, cold email, partnerships)" ++ nl ++
  "3) Draft a simple success metric (e.g., 5 qualified leads)" ++ nl ++
  "4) Schedule a weekly review to iterate".

(** The returned template, as a function of the values the f-string
    interpolates. *)
Definition advice_text (industry stage goal user_text bullets : string)
  : string :=
  "Context" ++ nl ++ "- Industry: " ++ industry ++ nl ++
  "- Stage: " ++ stage ++ nl ++ "- Goal: " ++ goal ++ nl ++ nl ++
  "Your prompt" ++ nl ++
  "- " ++ user_text ++ nl ++ nl ++
  "Advisor Summary" ++ nl ++
  "- Core thesis: Align actions to the next riskiest assumption." ++ nl ++
  "- Focus areas:" ++ nl ++ bullets ++ nl ++ nl ++
  "Suggested Next Steps" ++ nl ++ next_steps ++ nl ++ nl ++
  "Metrics To Watch" ++ nl ++ "- Lead velocity" ++ nl ++
  "- Conversion to qualified opportunity" ++ nl ++ "- CAC vs LTV" ++ nl ++
  "- Activation time" ++ nl ++ nl ++
  "Resources" ++ nl ++ "- Lean Canvas" ++ nl ++
  "- Mom Test (customer interviews)" ++ nl ++
  "- Pirate Metrics (AARRR)" ++ nl.

(** The topic list [generate_advice] binds to [focus]. *)
Definition selected_focus (meta : ConsultationCreate) : list string :=
  focus_of (lower (stage meta)).

Definition generate_advice (user_text : string) (meta : ConsultationCreate)
  : string :=
  let industry := title (industry meta) in
  let stage := lower (stage meta) in
  let goal := goal meta in
  let focus := focus_of stage in
  let bullets := bullets_of focus in
  advice_text industry stage goal user_text bullets.

(* ------------------------------------------------------------------ *)
(** ** Outcomes of a request *)

Inductive exn : Type :=
| HTTPException (status_code : N) (detail : string)
| RequestValidationError
| ValidationError
| InvalidId
| KeyError (key : string)
| AttributeError.

Inductive outcome (A : Type) : Type :=
| Ok (a : A)
| Raised (e : exn).

Arguments Ok {A} a.
Arguments Raised {A} e.

(** The status the framework answers with: a handler's [HTTPException]
    carries its own, a rejected request body is 422, any other exception
    that leaves the handler is 500. *)
Definition status_of {A : Type} (r : outcome A) : N :=
  match r with
  | Ok _ => 200
  | Raised (HTTPException c _) => c
  | Raised RequestValidationError => 422
  | Raised _ => 500
  end.

(* ------------------------------------------------------------------ *)
(** ** The document store *)

Module Database.

(** Modelled from the spec: the module [database] ([create_document],
    [get_documents], [db]) is not part of the sources. Section 4.1 of the
    specification gives insert-one(collection, document) -> generated id
    and find-many(collection, filter, limit) -> ordered sequence of
    documents with the limit a hard cap; section 3 gives every stored
    document its [created_at] and [updated_at]. The store holds its
    collections by name, the next identifier to hand out and a clock. *)
Record Store : Type := mk_Store {
  collections : string -> list dict;
  next_oid : oid;
  clock : nat -> datetime;
  ticks : nat
}.

Definition M (A : Type) : Type := Store -> Store * outcome A.

Definition ret {A : Type} (a : A) : M A := fun st => (st, Ok a).

Definition raise {A : Type} (e : exn) : M A := fun st => (st, Raised e).

Definition bind {A B : Type} (m : M A) (f : A -> M B) : M B :=
  fun st =>
    match m st with
    | (st', Ok a) => f a st'
    | (st', Raised e) => (st', Raised e)
    end.

(** [try: m  except Exception: handler] *)
Definition try_except {A : Type} (m : M A) (handler : M A) : M A :=
  fun st =>
    match m st with
    | (st', Ok a) => (st', Ok a)
    | (st', Raised _) => handler st'
    end.

(** An optional result whose absence is the exception [e]. *)
Definition or_raise {A : Type} (e : exn) (o : option A) : M A :=
  match o with
  | Some a => ret a
  | None => raise e
  end.

Definition set_collection (st : Store) (name : string) (docs : list dict)
  : Store :=
  mk_Store
    (fun n => if String.eqb n name then docs else collections st n)
    (next_oid st) (clock st) (ticks st).

(** Modelled from the spec: the clock that stamps documents; each reading
    advances it. *)
Definition now : M datetime :=
  fun st =>
    (mk_Store (collections st) (next_oid st) (clock st) (S (ticks st)),
     Ok (clock st (ticks st))).

(** Modelled from the spec: identifier generation, one fresh [ObjectId]
    per call. *)
Definition new_oid : M oid :=
  fun st =>
    (mk_Store (collections st) (N.succ (next_oid st)) (clock st) (ticks st),
     Ok (next_oid st)).

(** Modelled from the spec: insert-one. The document receives its
    generated [_id] and goes last in its collection. *)
Definition insert_one (name : string) (doc : dict) : M oid :=
  bind new_oid (fun o =>
  fun st =>
    (set_collection st name
       (collections st name ++ [dict_set doc "_id" (VObjectId o)]),
     Ok o)).

(** Modelled from the spec: [create_document(collection_name, data)]
    stamps a copy of [data], inserts it and returns the generated id as
    text. *)
Definition create_document (name : string) (data : dict) : M string :=
  bind now (fun t =>
  let data_dict := dict_set (dict_set data "created_at" (VDatetime t))
                            "updated_at" (VDatetime t) in
  bind (insert_one name data_dict) (fun o =>
  ret (oid_str o))).

(** A filter holds the values its fields must equal. *)
Definition matches (filter doc : dict) : bool :=
  forallb (fun kv =>
             match dict_get doc (fst kv) with
             | Some v => value_eqb v (snd kv)
             | None => false
             end)
          filter.

(** Modelled from the spec: find-many, in insertion order. *)
Definition find (name : string) (filter : dict) : M (list dict) :=
  fun st => (st, Ok (List.filter (matches filter) (collections st name))).

(** [db[name].find_one(filter)] *)
Definition find_one (name : string) (filter : dict) : M (option dict) :=
  bind (find name filter) (fun docs => ret (hd_error docs)).

(** Modelled from the spec: [get_documents(collection_name, filter, limit)]. *)
Definition get_documents (name : string) (filter : dict) (limit : nat)
  : M (list dict) :=
  bind (find name filter) (fun docs => ret (firstn limit docs)).

End Database.

Import Database.

Notation "x <- m ;; k" := (bind m (fun x => k))
  (at level 61, m at next level, right associativity).

(* ------------------------------------------------------------------ *)
(** ** Routes *)

(** [ObjectId(s)], raising [InvalidId]. *)
Definition ObjectId_of (s : string) : M object_id :=
  or_raise InvalidId (ObjectId_str s).

(** [db[name].find_one({"_id": oid})]. The stored identifiers have twelve
    bytes, so one of fewer bytes is the [_id] of no document. *)
Definition find_one_by_id (name : string) (key : object_id)
  : M (option dict) :=
  match key with
  | Whole o => find_one name [("_id", VObjectId o)]
  | Short _ => ret None
  end.

(** [s = serialize_doc(saved); s["id"] = s.pop("_id"); return s] *)
Definition with_public_id (saved : option dict) : M dict :=
  s <- or_raise AttributeError (serialize_found saved) ;;
  popped <- or_raise (KeyError "_id") (dict_pop s "_id") ;;
  ret (dict_set (snd popped) "id" (fst popped)).

Definition create_consultation (payload : ConsultationCreate) : M dict :=
  let doc := Schema.model_dump payload in
  inserted_id <- create_document "consultation" doc ;;
  o <- ObjectId_of inserted_id ;;
  saved <- find_one_by_id "consultation" o ;;
  with_public_id saved.

Fixpoint each_with_public_id (items : list dict) : M (list dict) :=
  match items with
  | [] => ret []
  | it :: rest =>
      s <- with_public_id (Some it) ;;
      out <- each_with_public_id rest ;;
      ret (s :: out)
  end.

Definition list_consultations : M (list dict) :=
  items <- get_documents "consultation" [] 50 ;;
  each_with_public_id items.

Definition get_consultation (consultation_id : string) : M dict :=
  it <- try_except
          (o <- ObjectId_of consultation_id ;;
           find_one_by_id "consultation" o)
          (raise (HTTPException 404 "Invalid consultation id")) ;;
  if falsy it then raise (HTTPException 404 "Consultation not found")
  else with_public_id it.

Definition list_messages (consultation_id : string) : M (list dict) :=
  _ <- try_except
         (ObjectId_of consultation_id)
         (raise (HTTPException 404 "Invalid consultation id")) ;;
  items <- get_documents "message"
             [("consultation_id", VStr consultation_id)] 200 ;;
  each_with_public_id items.

Definition send_message (consultation_id : string) (payload : MessageIn)
  : M dict :=
  (* Verify consultation exists *)
  found <- try_except
             (o <- ObjectId_of consultation_id ;;
              find_one_by_id "consultation" o)
             (raise (HTTPException 404 "Invalid consultation id")) ;;
  if falsy found then raise (HTTPException 404 "Consultation not found")
  else
  cons <- or_raise AttributeError found ;;
  (* Store user message *)
  let user_msg :=
    [ ("consultation_id", VStr consultation_id);
      ("role", VStr "user");
      ("content", VStr (content payload)) ] in
  _ <- create_document "message" user_msg ;;
  (* Generate advisor reply *)
  meta <- or_raise ValidationError
            (Schema.ConsultationCreate_validate
               [ ("business_name", dict_get_default cons "business_name" (VStr ""));
                 ("industry", dict_get_default cons "industry" (VStr ""));
                 ("stage", dict_get_default cons "stage" (VStr "idea"));
                 ("goal", dict_get_default cons "goal" (VStr ""));
                 ("notes", dict_get_default cons "notes" VNone) ]) ;;
  let reply_text := generate_advice (content payload) meta in
  let assistant_msg :=
    [ ("consultation_id", VStr consultation_id);
      ("role", VStr "assistant");
      ("content", VStr reply_text) ] in
  inserted_id <- create_document "message" assistant_msg ;;
  o <- ObjectId_of inserted_id ;;
  saved <- find_one_by_id "message" o ;;
  with_public_id saved.

(** *** The endpoints: the request body is validated against the
    handler's schema before the handler runs. *)

Definition POST_consultations (body : dict) : M dict :=
  payload <- or_raise RequestValidationError
               (Schema.ConsultationCreate_validate body) ;;
  create_consultation payload.

Definition POST_messages (consultation_id : string) (body : dict) : M dict :=
  payload <- or_raise RequestValidationError
               (Schema.MessageIn_validate body) ;;
  send_message consultation_id payload.

(** *** Stores the development is run on *)

Definition epoch : datetime := mk_datetime 2024 1 1 0 0 0 0.

Definition empty_store : Store :=
  mk_Store (fun _ => []) 0%N (fun _ => epoch) 0.

(** Every [ObjectId] held as an [_id] in [docs] was handed out before [n]. *)
Definition ids_below (n : oid) (docs : list dict) : Prop :=
  forall d o, In d docs -> dict_get d "_id" = Some (VObjectId o) -> (o < n)%N.

(** The store's identifiers are unique so far: none held by a consultation
    or a message is one the generator has yet to hand out. *)
Definition store_ok (st : Store) : Prop :=
  ids_below (next_oid st) (collections st "consultation") /\
  ids_below (next_oid st) (collections st "message").

(** The generator can still hand out [k] identifiers of twelve bytes. *)
Definition ids_left (k : N) (st : Store) : Prop :=
  (next_oid st + k <= oid_space)%N.

(* ------------------------------------------------------------------ *)
(** ** Predicates the statements use *)

(** A value that holds no [ObjectId] and no [datetime], at any depth. *)
Fixpoint plain (v : value) : bool :=
  match v with
  | VObjectId _ => false
  | VDatetime _ => false
  | VList items => forallb plain items
  | VDict items => forallb (fun kv => plain (snd kv)) items
  | _ => true
  end.

Definition plain_doc (doc : dict) : bool :=
  forallb (fun kv => plain (snd kv)) doc.

(** The keys of [stage_focus]. *)
Definition stage_keys : list string := map fst stage_focus.

(** [generate_advice] bound [focus] to the given topic list and wrote its
    bullets into the text. *)
Definition uses_focus (focus : list string) (user_text : string)
  (meta : ConsultationCreate) : Prop :=
  selected_focus meta = focus /\
  generate_advice user_text meta =
    advice_text (title (industry meta)) (lower (stage meta)) (goal meta)
                user_text (bullets_of focus).

(** The consultation id parses and no stored consultation carries it. *)
Definition unknown_id (consultation_id : string) (st : Store) : Prop :=
  exists key, ObjectId_str consultation_id = Some key /\
              find_one_by_id "consultation" key st = (st, Ok None).

(** The text held under [k], or [default] when [k] is missing. *)
Definition text_or (cons : dict) (k default : string) : string :=
  match dict_get cons k with
  | Some (VStr s) => s
  | _ => default
  end.

(** A field of a stored consultation is missing or holds text. *)
Definition missing_or_text (cons : dict) (k : string) : Prop :=
  dict_get cons k = None \/ exists s, dict_get cons k = Some (VStr s).

(** The document [create_document] stores for [data]: stamped by the
    clock and carrying the next identifier. *)
Definition stamped (st : Store) (data : dict) : dict :=
  let t := clock st (ticks st) in
  dict_set
    (dict_set (dict_set data "created_at" (VDatetime t))
              "updated_at" (VDatetime t))
    "_id" (VObjectId (next_oid st)).

(** The store [create_document] leaves. *)
Definition inserted (st : Store) (name : string) (data : dict) : Store :=
  mk_Store
    (fun n => if String.eqb n name
              then (collections st name ++ [stamped st data])%list
              else collections st n)
    (N.succ (next_oid st)) (clock st) (S (ticks st)).

(** The keyword arguments [send_message] builds [meta] from. *)
Definition meta_kwargs (cons : dict) : dict :=
  [ ("business_name", dict_get_default cons "business_name" (VStr ""));
    ("industry", dict_get_default cons "industry" (VStr ""));
    ("stage", dict_get_default cons "stage" (VStr "idea"));
    ("goal", dict_get_default cons "goal" (VStr ""));
    ("notes", dict_get_default cons "notes" VNone) ].

(** The two documents [send_message] hands to [create_document]. *)
Definition user_msg (consultation_id : string) (payload : MessageIn) : dict :=
  [ ("consultation_id", VStr consultation_id);
    ("role", VStr "user");
    ("content", VStr (content payload)) ].

Definition assistant_msg (consultation_id reply_text : string) : dict :=
  [ ("consultation_id", VStr consultation_id);
    ("role", VStr "assistant");
    ("content", VStr reply_text) ].

(** The messages [list_messages] reads for an id. *)
Definition messages_of (consultation_id : string) (st : Store) : list dict :=
  firstn 200
    (List.filter (matches [("consultation_id", VStr consultation_id)])
                 (collections st "message")).

(** What a call of [send_message] that took [st] to [st'] and answered
    [answer] has done: two documents appended to the message collection,
    the user's and then the assistant's, nothing else touched, and the
    assistant message returned in its public form. *)
Definition two_messages_stored (consultation_id : string) (payload : MessageIn)
  (st st' : Store) (answer : dict) : Prop :=
  exists user assistant reply_text,
    collections st' "message" =
      (collections st "message" ++ [user; assistant])%list /\
    (forall name, name <> "message" ->
                  collections st' name = collections st name) /\
    dict_get user "consultation_id" = Some (VStr consultation_id) /\
    dict_get user "role" = Some (VStr "user") /\
    dict_get user "content" = Some (VStr (content payload)) /\
    dict_get assistant "consultation_id" = Some (VStr consultation_id) /\
    dict_get assistant "role" = Some (VStr "assistant") /\
    dict_get assistant "content" = Some (VStr reply_text) /\
    (exists cons meta,
        Schema.ConsultationCreate_validate (meta_kwargs cons) = Some meta /\
        reply_text = generate_advice (content payload) meta) /\
    with_public_id (Some assistant) st' = (st', Ok answer) /\
    dict_get answer "role" = Some (VStr "assistant") /\
    dict_get answer "content" = Some (VStr reply_text).

(** The [meta] that [send_message] builds from a stored consultation
    whose fields are missing or hold text. *)
Definition meta_of (cons : dict) (notes : option string) : ConsultationCreate :=
  mk_ConsultationCreate
    (text_or cons "business_name" "")
    (text_or cons "industry" "")
    (text_or cons "stage" "idea")
    (text_or cons "goal" "")
    notes.

(** Every document of [docs] carries an [_id]. *)
Definition docs_have_id (docs : list dict) : Prop :=
  forall d, In d docs -> exists v, dict_get d "_id" = Some v.

(** Every stored consultation and message carries an [_id]. *)
Definition store_complete (st : Store) : Prop :=
  docs_have_id (collections st "consultation") /\
  docs_have_id (collections st "message").

(** The dict [with_public_id] answers with for a document that carries
    an [_id]: serialized, with the [_id] popped and set again as [id]. *)
Definition public_form (it : dict) : dict :=
  dict_set (dict_remove (serialize_doc it) "_id") "id"
    (match dict_get (serialize_doc it) "_id" with
     | Some v => v
     | None => VNone
     end).

(** The filter of [list_messages]. *)
Definition of_consultation (consultation_id : string) : dict :=
  [("consultation_id", VStr consultation_id)].

(** A required field of a request body that is missing or is not text. *)
Definition not_text (body : dict) (k : string) : Prop :=
  forall s, dict_get body k <> Some (VStr s).

(* ------------------------------------------------------------------ *)
(** ** The diagnostic route *)

Module Diagnostics.

(** What reading an attribute of [db] can do. *)
Inductive attribute : Type :=
| Present (v : value)
| Absent
| Failing (message : string).

(** The store handle as [test_database] uses it: its [name] attribute and
    the answer of [list_collection_names()], either the names or the text
    of the exception it raised. *)
Record handle : Type := mk_handle {
  name : attribute;
  list_collection_names : string + list string
}.

Definition initial_response : dict :=
  [ ("backend", VStr "✅ Running");
    ("database", VStr "❌ Not Available");
    ("database_url", VStr "❌ Not Set");
    ("database_name", VStr "❌ Not Set");
    ("connection_status", VStr "Not Connected");
    ("collections", VList []) ].

(** [str(e)[:50]] *)
Definition shown (message : string) : string := Text.take 50 message.

(** [test_database()], with the module-level [db] as its argument: [None]
    when no store is configured. *)
Definition test_database (db : option handle) : dict :=
  let response := initial_response in
  match db with
  | None => response
  | Some db =>
      let response := dict_set response "database" (VStr "✅ Available") in
      let response := dict_set response "database_url" (VStr "✅ Set") in
      match (match name db with
             | Present v => inr v
             | Absent => inr (VStr "✅ Connected")
             | Failing e => inl e
             end) with
      | inl e =>
          dict_set response "database" (VStr ("❌ Error: " ++ shown e))
      | inr database_name =>
          let response := dict_set response "database_name" database_name in
          let response :=
            dict_set response "connection_status" (VStr "Connected") in
          match list_collection_names db with
          | inr collections =>
              let response :=
                dict_set response "collections"
                  (VList (map VStr (firstn 10 collections))) in
              dict_set response "database" (VStr "✅ Connected & Working")
          | inl e =>
              dict_set response "database"
                (VStr ("⚠️ Connected but Error: " ++ shown e))
          end
      end
  end.

End Diagnostics.

(* ------------------------------------------------------------------ *)
(** ** Sample inputs *)

Definition nested_text_doc : dict :=
  [ ("id", VStr "000000000000000000000000");
    ("created_at", VStr "2024-01-01T00:00:00");
    ("tags", VList [VStr "a"; VInt 3; VNone]);
    ("owner", VDict [("name", VStr "Acme"); ("active", VBool true)]) ].

Definition acme : ConsultationCreate :=
  mk_ConsultationCreate "Acme" "retail" "idea" "grow sales" None.

Definition acme_mvp : ConsultationCreate :=
  mk_ConsultationCreate "Acme" "retail" "MVP" "grow sales" None.

Definition acme_body : dict :=
  [ ("business_name", VStr "Acme");
    ("industry", VStr "retail");
    ("goal", VStr "grow sales") ].

Definition zero_id : string := "000000000000000000000000".


(** 4001 characters. *)
Definition long_content : string :=
  string_of_list_ascii (repeat "a"%char 4001).

(** 2001 characters, each of two bytes. *)
Definition accented_content : string :=
  String.concat "" (repeat "é" 2001).

(** A store holding one consultation that was written without its
    [industry] and [stage]. *)
Definition sparse_store : Store :=
  mk_Store
    (fun n =>
       if String.eqb n "consultation"
       then [ [ ("_id", VObjectId 0); ("business_name", VStr "Acme");
                ("goal", VStr "grow sales") ] ]
       else [])
    1%N (fun _ => epoch) 0.


(** A store whose only consultation already holds 200 messages. *)
Definition full_store : Store :=
  mk_Store
    (fun n =>
       if String.eqb n "consultation"
       then [ [ ("_id", VObjectId 0); ("business_name", VStr "Acme");
                ("industry", VStr "retail"); ("stage", VStr "idea");
                ("goal", VStr "grow sales") ] ]
       else if String.eqb n "message"
       then map (fun i => [ ("consultation_id", VStr zero_id);
                            ("role", VStr "user");
                            ("content", VStr "hi");
                            ("_id", VObjectId (N.of_nat (S i))) ])
                (seq 0 200)
       else [])
    201%N (fun _ => epoch) 0.

Definition busy_db : Diagnostics.handle :=
  Diagnostics.mk_handle Diagnostics.Absent
    (inr [ "consultation"; "message"; "c3"; "c4"; "c5"; "c6"; "c7"; "c8";
           "c9"; "c10"; "c11"; "c12" ]).

(** An error text of 60 characters, each of two bytes. *)
Definition noisy_error : string := String.concat "" (repeat "é" 60).

Definition noisy_db : Diagnostics.handle :=
  Diagnostics.mk_handle (Diagnostics.Present (VStr "consultant"))
    (inl noisy_error).

Definition other_id : string := "000000000000000000000001".

(** A store past both caps: 55 consultations, and 230 messages of which
    every tenth belongs to [other_id] and the other 207 to [zero_id]. *)
Definition crowded_store : Store :=
  mk_Store
    (fun n =>
       if String.eqb n "consultation"
       then map (fun i => [ ("_id", VObjectId (N.of_nat i));
                            ("business_name", VStr "Acme");
                            ("industry", VStr "retail");
                            ("stage", VStr "idea");
                            ("goal", VStr "grow sales") ])
                (seq 0 55)
       else if String.eqb n "message"
       then map (fun i => [ ("consultation_id",
                             VStr (if (i mod 10 =? 9)%nat
                                   then other_id else zero_id));
                            ("role", VStr "user");
                            ("content", VStr "hi");
                            ("_id", VObjectId (N.of_nat (100 + i))) ])
                (seq 0 230)
       else [])
    1000%N (fun _ => epoch) 0.

(** Two spellings of one identifier. *)
Definition upper_id : string := "00000000000000000000000A".
Definition lower_id : string := "00000000000000000000000a".

(** A store whose consultation has the identifier that both spellings
    name, with one earlier message filed under the lowercase spelling. *)
Definition paired_store : Store :=
  mk_Store
    (fun n =>
       if String.eqb n "consultation"
       then [ [ ("_id", VObjectId 10); ("business_name", VStr "Acme");
                ("industry", VStr "retail"); ("stage", VStr "idea");
                ("goal", VStr "grow sales") ] ]
       else if String.eqb n "message"
       then [ [ ("consultation_id", VStr lower_id); ("role", VStr "user");
                ("content", VStr "earlier"); ("_id", VObjectId 3) ] ]
       else [])
    11%N (fun _ => epoch) 0.

(* ------------------------------------------------------------------ *)
(** ** Induction on values *)

Section ValueInd.

Variable P : value -> Prop.
Hypothesis HNone : P VNone.
Hypothesis HBool : forall b, P (VBool b).
Hypothesis HInt : forall z, P (VInt z).
Hypothesis HStr : forall s, P (VStr s).
Hypothesis HOid : forall o, P (VObjectId o).
Hypothesis HDate : forall d, P (VDatetime d).
Hypothesis HList : forall items, Forall P items -> P (VList items).
Hypothesis HDict :
  forall items, Forall (fun kv => P (snd kv)) items -> P (VDict items).

Fixpoint value_nested_ind (v : value) : P v :=
  match v with
  | VNone => HNone
  | VBool b => HBool b
  | VInt z => HInt z
  | VStr s => HStr s
  | VObjectId o => HOid o
  | VDatetime d => HDate d
  | VList items =>
      HList items
        ((fix all (l : list value) : Forall P l :=
            match l with
            | [] => Forall_nil P
            | x :: l' => Forall_cons x (value_nested_ind x) (all l')
            end) items)
  | VDict items =>
      HDict items
        ((fix all (l : list (string * value))
            : Forall (fun kv => P (snd kv)) l :=
            match l with
            | [] => Forall_nil _
            | kv :: l' =>
                Forall_cons kv (value_nested_ind (snd kv)) (all l')
            end) items)
  end.

End ValueInd.

(* ------------------------------------------------------------------ *)
(** ** Serialization *)

Lemma convert_plain_id : forall v, plain v = true -> _convert v = v.
Proof.
  induction v using value_nested_ind; simpl; intros Hp;
    try reflexivity; try discriminate.
  - f_equal. induction H as [|x l Hx Hl IH]; simpl in *; [reflexivity|].
    apply andb_true_iff in Hp as [Hx' Hl'].
    rewrite Hx by assumption. rewrite IH by assumption. reflexivity.
  - f_equal. induction H as [|[k x] l Hx Hl IH]; simpl in *; [reflexivity|].
    apply andb_true_iff in Hp as [Hx' Hl'].
    rewrite Hx by assumption. rewrite IH by assumption. reflexivity.
Qed.

Lemma convert_is_plain : forall v, plain (_convert v) = true.
Proof.
  induction v using value_nested_ind; simpl; try reflexivity.
  - induction H as [|x l Hx Hl IH]; simpl; [reflexivity|].
    rewrite Hx, IH. reflexivity.
  - induction H as [|[k x] l Hx Hl IH]; simpl in *; [reflexivity|].
    rewrite Hx, IH. reflexivity.
Qed.

Lemma serialize_doc_as_convert :
  forall doc, _convert (VDict doc) = VDict (serialize_doc doc).
Proof. reflexivity. Qed.

Lemma serialize_doc_is_plain : forall doc, plain_doc (serialize_doc doc) = true.
Proof.
  intros doc. exact (convert_is_plain (VDict doc)).
Qed.

Lemma serialize_doc_plain_id :
  forall doc, plain_doc doc = true -> serialize_doc doc = doc.
Proof.
  intros doc Hp.
  assert (H : _convert (VDict doc) = VDict doc)
    by (apply convert_plain_id; exact Hp).
  rewrite serialize_doc_as_convert in H. injection H as H. exact H.
Qed.

(** C6. Applied to a mapping whose values, through nested mappings and
    sequences, hold no identifier and no timestamp, [serialize_doc] returns
    its input; and applied twice to any mapping it returns what one
    application does. *)
Theorem serialize_doc_idempotent :
  forall doc,
    (plain_doc doc = true -> serialize_doc doc = doc) /\
    serialize_doc (serialize_doc doc) = serialize_doc doc.
Proof.
  intros doc. split.
  - apply serialize_doc_plain_id.
  - apply serialize_doc_plain_id, serialize_doc_is_plain.
Qed.

Lemma serialize_doc_idempotent_witness :
  plain_doc nested_text_doc = true /\
  serialize_doc nested_text_doc = nested_text_doc.
Proof.
  split.
  - reflexivity.
  - apply (proj1 (serialize_doc_idempotent nested_text_doc)). reflexivity.
Defined.

(* ------------------------------------------------------------------ *)
(** ** The advice generator *)

Lemma table_get_stage_focus_none :
  forall s, ~ In s stage_keys -> table_get stage_focus s = None.
Proof.
  intros s Hs. unfold stage_focus. cbn [table_get].
  repeat match goal with
         | |- context [String.eqb ?k s] =>
             let E := fresh "E" in
             destruct (String.eqb_spec k s) as [E|E];
             [ exfalso; apply Hs; rewrite <- E; simpl; tauto | ]
         end.
  reflexivity.
Qed.

Lemma table_get_stage_focus_some :
  forall s topics, table_get stage_focus s = Some topics -> In s stage_keys.
Proof.
  intros s topics. unfold stage_focus. cbn [table_get].
  repeat match goal with
         | |- context [String.eqb ?k s] =>
             let E := fresh "E" in
             destruct (String.eqb_spec k s) as [E|E];
             [ intros _; rewrite <- E; simpl; tauto | ]
         end.
  discriminate.
Qed.

Lemma generate_advice_uses_selected :
  forall user_text meta, uses_focus (selected_focus meta) user_text meta.
Proof. intros. split; reflexivity. Qed.

(** C2, as stated: a stage outside the four keys always selects the idea
    list. The stage [MVP] is outside the four keys and selects the mvp
    list. *)
Lemma stage_outside_keys_counterexample :
  ~ (forall user_text meta,
        ~ In (stage meta) ["idea"; "mvp"; "growth"; "scale"] ->
        uses_focus idea_focus user_text meta).
Proof.
  intros H.
  assert (Hout : ~ In (stage acme_mvp) ["idea"; "mvp"; "growth"; "scale"]).
  { simpl. intros [E|[E|[E|[E|[]]]]]; discriminate E. }
  destruct (H "hi" acme_mvp Hout) as [Hsel _].
  vm_compute in Hsel. discriminate Hsel.
Qed.

(** C2, amended. For every stage whose lowercase form is not one of
    idea, mvp, growth, scale, the advice generator selects the idea topic
    list (Problem validation, Customer discovery, Value proposition,
    Competitive scan) as the focus list of the produced text. *)
Theorem lowered_stage_outside_keys_falls_back :
  forall user_text meta,
    ~ In (lower (stage meta)) ["idea"; "mvp"; "growth"; "scale"] ->
    uses_focus
      [ "Problem validation"; "Customer discovery";
        "Value proposition"; "Competitive scan" ]
      user_text meta.
Proof.
  intros user_text meta Hout.
  assert (Hsel : selected_focus meta = idea_focus).
  { unfold selected_focus, focus_of.
    rewrite table_get_stage_focus_none by exact Hout. reflexivity. }
  pose proof (generate_advice_uses_selected user_text meta) as Huses.
  rewrite Hsel in Huses. exact Huses.
Qed.

Lemma lowered_stage_outside_keys_falls_back_witness :
  ~ In (lower (stage (mk_ConsultationCreate "Acme" "retail" "Pivot" "grow" None)))
       ["idea"; "mvp"; "growth"; "scale"] /\
  uses_focus
    [ "Problem validation"; "Customer discovery";
      "Value proposition"; "Competitive scan" ]
    "hi" (mk_ConsultationCreate "Acme" "retail" "Pivot" "grow" None).
Proof.
  assert (Hout :
    ~ In (lower (stage (mk_ConsultationCreate "Acme" "retail" "Pivot" "grow" None)))
         ["idea"; "mvp"; "growth"; "scale"]).
  { simpl. intros [E|[E|[E|[E|[]]]]]; discriminate E. }
  split.
  - exact Hout.
  - apply (lowered_stage_outside_keys_falls_back "hi" _ Hout).
Defined.

(** C9. The stage lookup is case-insensitive: the topic list selected for
    a stage is the table entry keyed by its lowercase form whenever that
    entry exists, so [MVP] selects the mvp list and [Growth] the growth
    list; the table has no entry, and the idea list is the fallback,
    exactly when the lowercase form is not one of the four keys. *)
Theorem stage_lookup_case_insensitive :
  forall user_text meta,
    uses_focus (focus_of (lower (stage meta))) user_text meta /\
    (forall topics,
        table_get stage_focus (lower (stage meta)) = Some topics ->
        selected_focus meta = topics) /\
    (table_get stage_focus (lower (stage meta)) = None <->
     ~ In (lower (stage meta)) ["idea"; "mvp"; "growth"; "scale"]) /\
    (table_get stage_focus (lower (stage meta)) = None ->
     selected_focus meta = idea_focus) /\
    (forall b i g n,
        selected_focus (mk_ConsultationCreate b i "MVP" g n) =
          [ "MVP scope"; "Success metrics"; "Go-to-market";
            "Pricing hypothesis" ] /\
        selected_focus (mk_ConsultationCreate b i "Growth" g n) =
          [ "Acquisition channels"; "Retention levers";
            "Unit economics"; "Sales pipeline" ]).
Proof.
  intros user_text meta.
  split; [apply generate_advice_uses_selected|].
  split; [|split; [|split]].
  - intros topics Hget. unfold selected_focus, focus_of. rewrite Hget.
    reflexivity.
  - split.
    + intros Hnone Hin.
      destruct (table_get stage_focus (lower (stage meta))) eqn:E;
        [discriminate|].
      clear Hnone. revert E. simpl in Hin.
      destruct Hin as [E|[E|[E|[E|[]]]]]; rewrite <- E; discriminate.
    + apply table_get_stage_focus_none.
  - intros Hnone. unfold selected_focus, focus_of. rewrite Hnone.
    reflexivity.
  - intros b i g n. split; reflexivity.
Qed.

Lemma stage_lookup_case_insensitive_witness :
  table_get stage_focus (lower (stage acme_mvp)) =
    Some [ "MVP scope"; "Success metrics"; "Go-to-market";
           "Pricing hypothesis" ] /\
  selected_focus acme_mvp =
    [ "MVP scope"; "Success metrics"; "Go-to-market"; "Pricing hypothesis" ].
Proof.
  split.
  - reflexivity.
  - apply (proj1 (proj2 (stage_lookup_case_insensitive "hi" acme_mvp))).
    reflexivity.
Defined.

(* ------------------------------------------------------------------ *)
(** ** Identifiers and their text form *)

Lemma hex_val_hex_digit :
  forall d, (d < 16)%N -> hex_val (hex_digit d) = Some d.
Proof.
  intros d Hd.
  assert (E : In d [0;1;2;3;4;5;6;7;8;9;10;11;12;13;14;15]%N)
    by (simpl; lia).
  simpl in E.
  repeat (destruct E as [E|E]; [subst d; reflexivity|]).
  contradiction.
Qed.

Lemma to_hex_length :
  forall k n rest, String.length (to_hex k n rest) = (k + String.length rest)%nat.
Proof.
  induction k as [|k IH]; intros n rest; simpl; [reflexivity|].
  rewrite IH. simpl. lia.
Qed.

Lemma of_hex_to_hex :
  forall k n rest acc,
    of_hex (to_hex k n rest) acc =
    of_hex rest (acc * 16 ^ N.of_nat k + n mod 16 ^ N.of_nat k)%N.
Proof.
  induction k as [|k IH]; intros n rest acc.
  - simpl to_hex. change (16 ^ N.of_nat 0)%N with 1%N.
    rewrite N.mod_1_r, N.mul_1_r, N.add_0_r. reflexivity.
  - cbn [to_hex]. rewrite IH. cbn [of_hex].
    rewrite hex_val_hex_digit by (apply N.mod_lt; discriminate).
    f_equal.
    rewrite Nat2N.inj_succ, N.pow_succ_r'.
    rewrite (N.Div0.mod_mul_r n 16 (16 ^ N.of_nat k)).
    lia.
Qed.

Lemma hex_digit_starts_character :
  forall d, Text.is_continuation (hex_digit d) = false.
Proof.
  intros d. unfold hex_digit.
  generalize (N.to_nat d). intros n.
  do 17 (destruct n as [|n]; [reflexivity|]). reflexivity.
Qed.

Lemma to_hex_len :
  forall k n rest, Text.len (to_hex k n rest) = (k + Text.len rest)%nat.
Proof.
  induction k as [|k IH]; intros n rest; cbn [to_hex]; [reflexivity|].
  rewrite IH. cbn [Text.len]. rewrite hex_digit_starts_character. lia.
Qed.

Lemma hex_val_not_space :
  forall c d, hex_val c = Some d -> is_space c = false.
Proof.
  intros c d H.
  destruct (is_space c) eqn:E; [|reflexivity].
  exfalso. revert H. unfold is_space in E. unfold hex_val.
  apply orb_true_iff in E as [E|E].
  - apply andb_true_iff in E as [E1 E2].
    apply Nat.leb_le in E1. apply Nat.leb_le in E2.
    repeat match goal with
           | |- context [(?a <=? ?b)%N] =>
               destruct (N.leb_spec a b); cbn [andb]
           end; try discriminate; lia.
  - apply Nat.eqb_eq in E. rewrite E. cbn. discriminate.
Qed.

(** On a string of hexadecimal digits [fromhex] reads the number that
    [of_hex] reads, two digits to the byte. *)
Lemma fromhex_of_hex :
  forall k s acc v,
    String.length s = (2 * k)%nat ->
    of_hex s acc = Some v ->
    exists bytes,
      fromhex s = Some bytes /\
      List.length bytes = k /\
      fold_left (fun a b => (256 * a + b)%N) bytes acc = v.
Proof.
  induction k as [|k IH]; intros s acc v Hlen Hv.
  - destruct s; [|discriminate Hlen]. cbn in Hv. injection Hv as <-.
    exists []. repeat split.
  - destruct s as [|c s]; [discriminate Hlen|].
    destruct s as [|c' rest]; [cbn in Hlen; lia|].
    cbn [of_hex] in Hv.
    destruct (hex_val c) as [top|] eqn:Hc; [|discriminate Hv].
    destruct (hex_val c') as [bot|] eqn:Hc'; [|discriminate Hv].
    destruct (IH rest (16 * (16 * acc + top) + bot)%N v)
      as (bytes & Hb & Hn & Hf);
      [cbn in Hlen; lia | exact Hv |].
    exists ((16 * top + bot)%N :: bytes).
    cbn [fromhex]. rewrite (hex_val_not_space c top Hc), Hc, Hc', Hb.
    split; [reflexivity|]. split; [cbn; lia|].
    cbn [fold_left]. rewrite <- Hf. f_equal. lia.
Qed.

Lemma ObjectId_str_oid_str :
  forall o, (o < oid_space)%N -> ObjectId_str (oid_str o) = Some (Whole o).
Proof.
  intros o Ho. unfold ObjectId_str, oid_str.
  rewrite to_hex_len. cbn [Text.len Nat.add Nat.eqb].
  destruct (fromhex_of_hex 12 (to_hex 24 o "") 0%N o) as (bytes & Hb & Hn & Hf).
  - rewrite to_hex_length. reflexivity.
  - rewrite of_hex_to_hex. cbn [of_hex].
    change (16 ^ N.of_nat 24)%N with oid_space.
    rewrite N.mod_small by exact Ho. reflexivity.
  - rewrite Hb, Hn. cbn [Nat.eqb]. unfold be_value. rewrite Hf. reflexivity.
Qed.

Lemma ObjectId_oid_str :
  forall o, (o < oid_space)%N -> ObjectId (oid_str o) = Some o.
Proof.
  intros o Ho. unfold ObjectId. rewrite (ObjectId_str_oid_str o Ho).
  reflexivity.
Qed.

Lemma ObjectId_whole :
  forall s o, ObjectId s = Some o <-> ObjectId_str s = Some (Whole o).
Proof.
  intros s o. unfold ObjectId.
  destruct (ObjectId_str s) as [[o'|bytes]|]; split; intros H;
    try discriminate H; congruence.
Qed.

Lemma oid_str_nonempty : forall o, oid_str o <> "".
Proof.
  intros o E. apply (f_equal String.length) in E.
  unfold oid_str in E. rewrite to_hex_length in E. discriminate E.
Qed.

(* ------------------------------------------------------------------ *)
(** ** Dicts *)

Lemma dict_get_set_same :
  forall d k v, dict_get (dict_set d k v) k = Some v.
Proof.
  induction d as [|[k' v'] d IH]; intros k v; cbn [dict_set dict_get].
  - rewrite String.eqb_refl. reflexivity.
  - destruct (String.eqb k' k) eqn:E; cbn [dict_get]; rewrite E.
    + reflexivity.
    + apply IH.
Qed.

Lemma dict_get_set_other :
  forall d k v k', k <> k' -> dict_get (dict_set d k v) k' = dict_get d k'.
Proof.
  induction d as [|[k0 v0] d IH]; intros k v k' Hne; cbn [dict_set dict_get].
  - destruct (String.eqb_spec k k'); [contradiction|reflexivity].
  - destruct (String.eqb_spec k0 k) as [E|E]; cbn [dict_get].
    + subst k0. destruct (String.eqb_spec k k'); [contradiction|reflexivity].
    + destruct (String.eqb k0 k'); [reflexivity|]. apply IH. exact Hne.
Qed.

Lemma dict_get_remove_other :
  forall d k k', k <> k' -> dict_get (dict_remove d k) k' = dict_get d k'.
Proof.
  induction d as [|[k0 v0] d IH]; intros k k' Hne; cbn [dict_remove dict_get].
  - reflexivity.
  - destruct (String.eqb_spec k0 k) as [E|E]; cbn [dict_get].
    + subst k0. destruct (String.eqb_spec k k'); [contradiction|reflexivity].
    + destruct (String.eqb k0 k'); [reflexivity|]. apply IH. exact Hne.
Qed.

Lemma dict_get_serialize_doc :
  forall d k, dict_get (serialize_doc d) k = option_map _convert (dict_get d k).
Proof.
  induction d as [|[k0 v0] d IH]; intros k; [reflexivity|].
  unfold serialize_doc in *. cbn [map dict_get fst snd].
  destruct (String.eqb k0 k); [reflexivity|]. apply IH.
Qed.

Lemma dict_get_some_not_falsy :
  forall d k v, dict_get d k = Some v -> falsy (Some d) = false.
Proof.
  intros [|kv d] k v H; [discriminate H|reflexivity].
Qed.

(* ------------------------------------------------------------------ *)
(** ** The store *)

Lemma value_eqb_oid :
  forall v o, value_eqb v (VObjectId o) = true -> v = VObjectId o.
Proof.
  intros v o H. destruct v; try discriminate H.
  cbn in H. apply N.eqb_eq in H. subst. reflexivity.
Qed.

Lemma matches_id :
  forall o d,
    matches [("_id", VObjectId o)] d = true <->
    dict_get d "_id" = Some (VObjectId o).
Proof.
  intros o d. unfold matches. cbn [forallb fst snd].
  rewrite andb_true_r. split.
  - destruct (dict_get d "_id") as [v|]; [|discriminate].
    intros H. apply value_eqb_oid in H. subst v. reflexivity.
  - intros ->. cbn. apply N.eqb_refl.
Qed.

Lemma filter_id_none :
  forall n docs,
    ids_below n docs -> List.filter (matches [("_id", VObjectId n)]) docs = [].
Proof.
  intros n docs. induction docs as [|d docs IH]; intros Hb; [reflexivity|].
  cbn [List.filter].
  destruct (matches [("_id", VObjectId n)] d) eqn:E.
  - apply matches_id in E. specialize (Hb d n (or_introl eq_refl) E). lia.
  - apply IH. intros d' o Hin. apply Hb. right. exact Hin.
Qed.

Lemma filter_id_fresh :
  forall n docs d,
    ids_below n docs ->
    dict_get d "_id" = Some (VObjectId n) ->
    List.filter (matches [("_id", VObjectId n)]) (docs ++ [d]) = [d].
Proof.
  intros n docs d Hb Hd.
  rewrite filter_app, filter_id_none by exact Hb.
  cbn [List.filter app].
  apply matches_id in Hd. rewrite Hd. reflexivity.
Qed.

Lemma find_one_found_has_id :
  forall name o st r doc,
    find_one name [("_id", VObjectId o)] st = (r, Ok (Some doc)) ->
    dict_get doc "_id" = Some (VObjectId o).
Proof.
  intros name o st r doc H.
  unfold find_one, find, bind, ret in H.
  destruct (List.filter (matches [("_id", VObjectId o)]) (collections st name))
    as [|d l] eqn:E; cbn in H; [discriminate H|].
  injection H as _ H. subst d.
  assert (Hin : In doc (doc :: l)) by (left; reflexivity).
  rewrite <- E in Hin. apply filter_In in Hin as [_ Hm].
  apply matches_id. exact Hm.
Qed.

Lemma find_one_pure :
  forall name filter st,
    find_one name filter st =
    (st, Ok (hd_error (List.filter (matches filter) (collections st name)))).
Proof. reflexivity. Qed.

Lemma bind_run {A B : Type} (m : M A) (f : A -> M B) st {st' a} :
  m st = (st', Ok a) -> bind m f st = f a st'.
Proof. intros H. unfold bind. rewrite H. reflexivity. Qed.

Lemma bind_raised {A B : Type} (m : M A) (f : A -> M B) st {st' e} :
  m st = (st', Raised e) -> bind m f st = (st', Raised e).
Proof. intros H. unfold bind. rewrite H. reflexivity. Qed.

Lemma create_document_run :
  forall name data st,
    create_document name data st =
    (inserted st name data, Ok (oid_str (next_oid st))).
Proof. reflexivity. Qed.

Lemma inserted_same :
  forall st name data,
    collections (inserted st name data) name =
    (collections st name ++ [stamped st data])%list.
Proof.
  intros. unfold inserted. cbn [collections]. rewrite String.eqb_refl.
  reflexivity.
Qed.

Lemma inserted_other :
  forall st name data n,
    n <> name ->
    collections (inserted st name data) n = collections st n.
Proof.
  intros st name data n Hne. unfold inserted. cbn [collections].
  destruct (String.eqb_spec n name); [contradiction|reflexivity].
Qed.

Lemma stamped_id :
  forall st data, dict_get (stamped st data) "_id" = Some (VObjectId (next_oid st)).
Proof. intros. unfold stamped. apply dict_get_set_same. Qed.

Lemma stamped_field :
  forall st data k,
    k <> "_id" -> k <> "created_at" -> k <> "updated_at" ->
    dict_get (stamped st data) k = dict_get data k.
Proof.
  intros st data k H1 H2 H3. unfold stamped. cbv zeta.
  rewrite !dict_get_set_other by congruence. reflexivity.
Qed.

Lemma refetch_inserted :
  forall st name data,
    ids_below (next_oid st) (collections st name) ->
    find_one name [("_id", VObjectId (next_oid st))] (inserted st name data) =
    (inserted st name data, Ok (Some (stamped st data))).
Proof.
  intros st name data Hb. rewrite find_one_pure, inserted_same.
  rewrite filter_id_fresh by (exact Hb || apply stamped_id).
  reflexivity.
Qed.

Lemma with_public_id_run :
  forall d v st,
    dict_get d "_id" = Some v ->
    with_public_id (Some d) st =
    (st, Ok (dict_set (dict_remove (serialize_doc d) "_id") "id" (_convert v))).
Proof.
  intros d v st H.
  unfold with_public_id, serialize_found, bind, or_raise, ret, dict_pop.
  cbn [option_map].
  rewrite dict_get_serialize_doc, H. reflexivity.
Qed.

Lemma with_public_id_field :
  forall d st s k,
    with_public_id (Some d) st = (st, Ok s) ->
    k <> "id" -> k <> "_id" ->
    dict_get s k = option_map _convert (dict_get d k).
Proof.
  intros d st s k H Hk1 Hk2.
  unfold with_public_id, serialize_found, bind, or_raise, ret, raise, dict_pop
    in H.
  cbn [option_map] in H.
  destruct (dict_get (serialize_doc d) "_id") as [v|] eqn:E;
    [|discriminate H].
  injection H as H. subst s. cbn [fst snd].
  rewrite dict_get_set_other, dict_get_remove_other by congruence.
  apply dict_get_serialize_doc.
Qed.

(** What [with_public_id] can do: answer, or miss the [_id] key. *)
Lemma with_public_id_outcome :
  forall d st,
    (exists s, with_public_id (Some d) st = (st, Ok s)) \/
    with_public_id (Some d) st = (st, Raised (KeyError "_id")).
Proof.
  intros d st.
  unfold with_public_id, serialize_found, bind, or_raise, ret, raise, dict_pop.
  cbn [option_map].
  destruct (dict_get (serialize_doc d) "_id") as [v|].
  - left. eexists. reflexivity.
  - right. reflexivity.
Qed.

Lemma each_with_public_id_outcome :
  forall items st,
    (exists out, each_with_public_id items st = (st, Ok out)) \/
    each_with_public_id items st = (st, Raised (KeyError "_id")).
Proof.
  induction items as [|it rest IH]; intros st.
  - left. exists []. reflexivity.
  - cbn [each_with_public_id].
    destruct (with_public_id_outcome it st) as [[s Hs]|Hs].
    + rewrite (bind_run _ _ _ Hs).
      destruct (IH st) as [[out Hout]|Hout].
      * left. exists (s :: out). rewrite (bind_run _ _ _ Hout). reflexivity.
      * right. rewrite (bind_raised _ _ _ Hout). reflexivity.
    + right. rewrite (bind_raised _ _ _ Hs). reflexivity.
Qed.

Lemma ObjectId_of_whole :
  forall s o st, ObjectId s = Some o -> ObjectId_of s st = (st, Ok (Whole o)).
Proof.
  intros s o st H. apply ObjectId_whole in H. unfold ObjectId_of.
  rewrite H. reflexivity.
Qed.

(** The run of [create_consultation] on a store whose identifiers are
    unique and not exhausted. *)
Lemma create_consultation_run :
  forall payload st,
    store_ok st -> ids_left 1 st ->
    create_consultation payload st =
    with_public_id (Some (stamped st (Schema.model_dump payload)))
      (inserted st "consultation" (Schema.model_dump payload)).
Proof.
  intros payload st [Hc _] Hleft. unfold create_consultation.
  rewrite (bind_run _ _ _ (create_document_run _ _ _)).
  assert (Hid : ObjectId (oid_str (next_oid st)) = Some (next_oid st))
    by (apply ObjectId_oid_str; unfold ids_left in Hleft; lia).
  rewrite (bind_run _ _ _ (ObjectId_of_whole _ _ _ Hid)).
  cbn [find_one_by_id].
  rewrite (bind_run _ _ _ (refetch_inserted _ _ _ Hc)).
  reflexivity.
Qed.

Lemma get_consultation_run :
  forall consultation_id o doc st,
    ObjectId consultation_id = Some o ->
    find_one "consultation" [("_id", VObjectId o)] st = (st, Ok (Some doc)) ->
    get_consultation consultation_id st = with_public_id (Some doc) st.
Proof.
  intros cid o doc st Hid Hfind. unfold get_consultation.
  assert (Htry :
    try_except
      (bind (ObjectId_of cid) (fun o => find_one_by_id "consultation" o))
      (raise (HTTPException 404 "Invalid consultation id")) st =
    (st, Ok (Some doc))).
  { unfold try_except.
    rewrite (bind_run _ _ _ (ObjectId_of_whole _ _ _ Hid)).
    cbn [find_one_by_id]. rewrite Hfind. reflexivity. }
  rewrite (bind_run _ _ _ Htry).
  rewrite (dict_get_some_not_falsy _ _ _ (find_one_found_has_id _ _ _ _ _ Hfind)).
  reflexivity.
Qed.

(* ------------------------------------------------------------------ *)
(** ** Consultations *)

(** C5. On a store whose identifiers are unique and not exhausted,
    [create_consultation] answers every payload with an object whose [id]
    is a non-empty string, and [get_consultation] called next with that id
    answers with the same object. *)
Theorem create_then_get_roundtrip :
  forall payload st,
    store_ok st -> ids_left 1 st ->
    exists st' r id,
      create_consultation payload st = (st', Ok r) /\
      dict_get r "id" = Some (VStr id) /\
      id <> "" /\
      get_consultation id st' = (st', Ok r).
Proof.
  intros payload st Hok Hleft.
  pose proof (create_consultation_run payload st Hok Hleft) as Hrun.
  rewrite (with_public_id_run _ _ _ (stamped_id _ _)) in Hrun.
  eexists _, _, (oid_str (next_oid st)).
  split; [exact Hrun|].
  split; [apply dict_get_set_same|].
  split; [apply oid_str_nonempty|].
  destruct Hok as [Hc _].
  rewrite (get_consultation_run (oid_str (next_oid st)) (next_oid st)
             (stamped st (Schema.model_dump payload))).
  - apply with_public_id_run, stamped_id.
  - apply ObjectId_oid_str. unfold ids_left in Hleft. lia.
  - apply refetch_inserted. exact Hc.
Qed.

Lemma empty_store_ok : store_ok empty_store.
Proof. split; intros d o []. Qed.

Lemma empty_store_ids_left : forall k, (k <= oid_space)%N -> ids_left k empty_store.
Proof. intros k Hk. exact Hk. Qed.

Lemma create_then_get_roundtrip_witness :
  exists st' r id,
    create_consultation acme empty_store = (st', Ok r) /\
    dict_get r "id" = Some (VStr id) /\
    id <> "" /\
    get_consultation id st' = (st', Ok r).
Proof.
  apply (create_then_get_roundtrip acme empty_store).
  - exact empty_store_ok.
  - apply empty_store_ids_left. vm_compute. discriminate.
Defined.

Lemma validate_without_stage :
  forall body b i g n,
    dict_get body "business_name" = Some (VStr b) ->
    dict_get body "industry" = Some (VStr i) ->
    dict_get body "goal" = Some (VStr g) ->
    dict_get body "stage" = None ->
    Schema.optional_str body "notes" = Some n ->
    Schema.ConsultationCreate_validate body =
    Some (mk_ConsultationCreate b i "idea" g n).
Proof.
  intros body b i g n Hb Hi Hg Hs Hn.
  unfold Schema.ConsultationCreate_validate, Schema.required_str,
    Schema.default_str.
  rewrite Hb, Hi, Hg, Hs, Hn. reflexivity.
Qed.

(** C7. A creation payload that supplies [business_name], [industry] and
    [goal] and omits [stage] is stored with stage [idea], and the response
    carries stage [idea]. *)
Theorem omitted_stage_defaults_to_idea :
  forall body b i g n st,
    store_ok st -> ids_left 1 st ->
    dict_get body "business_name" = Some (VStr b) ->
    dict_get body "industry" = Some (VStr i) ->
    dict_get body "goal" = Some (VStr g) ->
    dict_get body "stage" = None ->
    Schema.optional_str body "notes" = Some n ->
    exists st' r stored,
      POST_consultations body st = (st', Ok r) /\
      dict_get r "stage" = Some (VStr "idea") /\
      collections st' "consultation" =
        (collections st "consultation" ++ [stored])%list /\
      dict_get stored "stage" = Some (VStr "idea").
Proof.
  intros body b i g n st Hok Hleft Hb Hi Hg Hs Hn.
  set (payload := mk_ConsultationCreate b i "idea" g n).
  assert (Hrun : POST_consultations body st =
                 with_public_id (Some (stamped st (Schema.model_dump payload)))
                   (inserted st "consultation" (Schema.model_dump payload))).
  { unfold POST_consultations.
    rewrite (validate_without_stage body b i g n Hb Hi Hg Hs Hn).
    cbn [or_raise].
    rewrite (bind_run _ _ _ (eq_refl : ret _ _ = (_, Ok _))).
    apply create_consultation_run; assumption. }
  assert (Hstored : dict_get (stamped st (Schema.model_dump payload)) "stage"
                    = Some (VStr "idea")).
  { rewrite stamped_field by discriminate. reflexivity. }
  pose proof (with_public_id_run (stamped st (Schema.model_dump payload)) _
                (inserted st "consultation" (Schema.model_dump payload))
                (stamped_id st (Schema.model_dump payload))) as Hpub.
  eexists _, _, _.
  split; [rewrite Hrun; exact Hpub|].
  split.
  - rewrite (with_public_id_field _ _ _ "stage" Hpub) by discriminate.
    rewrite Hstored. reflexivity.
  - split; [apply inserted_same | exact Hstored].
Qed.

Lemma omitted_stage_defaults_to_idea_witness :
  exists st' r stored,
    POST_consultations acme_body empty_store = (st', Ok r) /\
    dict_get r "stage" = Some (VStr "idea") /\
    collections st' "consultation" =
      (collections empty_store "consultation" ++ [stored])%list /\
    dict_get stored "stage" = Some (VStr "idea").
Proof.
  apply (omitted_stage_defaults_to_idea acme_body "Acme" "retail" "grow sales"
           None empty_store).
  - exact empty_store_ok.
  - apply empty_store_ids_left. vm_compute. discriminate.
  - reflexivity.
  - reflexivity.
  - reflexivity.
  - reflexivity.
  - reflexivity.
Defined.

(* ------------------------------------------------------------------ *)
(** ** Messages: validation of the request body *)

(** C4. A send-message request whose content has no character or more
    than 4000 characters fails validation and leaves the store as it was;
    content of 1 to 4000 characters passes validation and reaches the
    handler. *)
Theorem content_length_validated :
  forall consultation_id body s st,
    dict_get body "content" = Some (VStr s) ->
    ((Text.len s = 0 \/ 4000 < Text.len s)%nat ->
     POST_messages consultation_id body st = (st, Raised RequestValidationError) /\
     status_of (snd (POST_messages consultation_id body st)) = 422%N) /\
    ((1 <= Text.len s <= 4000)%nat ->
     Schema.MessageIn_validate body = Some (mk_MessageIn s) /\
     POST_messages consultation_id body st =
       send_message consultation_id (mk_MessageIn s) st).
Proof.
  intros cid body s st Hc.
  assert (Hv : Schema.MessageIn_validate body =
               if (1 <=? Text.len s)%nat && (Text.len s <=? 4000)%nat
               then Some (mk_MessageIn s) else None).
  { unfold Schema.MessageIn_validate, Schema.required_str. rewrite Hc.
    reflexivity. }
  split.
  - intros Hlen.
    assert (Hrun : POST_messages cid body st = (st, Raised RequestValidationError)).
    { unfold POST_messages. rewrite Hv.
      replace ((1 <=? Text.len s)%nat && (Text.len s <=? 4000)%nat)
        with false.
      - reflexivity.
      - symmetry. apply andb_false_iff.
        destruct Hlen as [H0|H1].
        + left. apply Nat.leb_gt. lia.
        + right. apply Nat.leb_gt. exact H1. }
    split; [exact Hrun|]. rewrite Hrun. reflexivity.
  - intros [Hlo Hhi].
    assert (Hok : Schema.MessageIn_validate body = Some (mk_MessageIn s)).
    { rewrite Hv. apply Nat.leb_le in Hlo. apply Nat.leb_le in Hhi.
      rewrite Hlo, Hhi. reflexivity. }
    split; [exact Hok|].
    unfold POST_messages. rewrite Hok. reflexivity.
Qed.

Lemma content_length_validated_witness :
  ((POST_messages zero_id [("content", VStr long_content)] empty_store =
      (empty_store, Raised RequestValidationError) /\
    status_of (snd (POST_messages zero_id [("content", VStr long_content)]
                      empty_store)) = 422%N) /\
   Text.len long_content = 4001%nat) /\
  ((Schema.MessageIn_validate [("content", VStr accented_content)] =
      Some (mk_MessageIn accented_content) /\
    POST_messages zero_id [("content", VStr accented_content)] empty_store =
      send_message zero_id (mk_MessageIn accented_content) empty_store) /\
   Text.len accented_content = 2001%nat /\
   String.length accented_content = 4002%nat).
Proof.
  assert (Hlen : Text.len long_content = 4001%nat) by (vm_compute; reflexivity).
  assert (Hacc : Text.len accented_content = 2001%nat)
    by (vm_compute; reflexivity).
  split; split.
  - apply (proj1 (content_length_validated zero_id
                    [("content", VStr long_content)] long_content empty_store
                    eq_refl)).
    right. rewrite Hlen. lia.
  - exact Hlen.
  - apply (proj2 (content_length_validated zero_id
                    [("content", VStr accented_content)] accented_content
                    empty_store eq_refl)).
    rewrite Hacc. lia.
  - split; [exact Hacc | vm_compute; reflexivity].
Defined.

(* ------------------------------------------------------------------ *)
(** ** Identifiers that are malformed or unknown *)

Lemma lookup_invalid :
  forall consultation_id st,
    ObjectId_str consultation_id = None ->
    try_except
      (bind (ObjectId_of consultation_id)
            (fun o => find_one_by_id "consultation" o))
      (raise (HTTPException 404 "Invalid consultation id")) st =
    (st, Raised (HTTPException 404 "Invalid consultation id")).
Proof.
  intros cid st H. unfold try_except, bind, ObjectId_of. rewrite H.
  reflexivity.
Qed.

Lemma lookup_parsed :
  forall consultation_id oid st,
    ObjectId_str consultation_id = Some oid ->
    try_except
      (bind (ObjectId_of consultation_id)
            (fun o => find_one_by_id "consultation" o))
      (raise (HTTPException 404 "Invalid consultation id")) st =
    find_one_by_id "consultation" oid st.
Proof.
  intros cid oid st H. unfold try_except, bind, ObjectId_of. rewrite H.
  destruct oid; reflexivity.
Qed.

Lemma lookup_valid :
  forall consultation_id o st,
    ObjectId consultation_id = Some o ->
    try_except
      (bind (ObjectId_of consultation_id)
            (fun o => find_one_by_id "consultation" o))
      (raise (HTTPException 404 "Invalid consultation id")) st =
    find_one "consultation" [("_id", VObjectId o)] st.
Proof.
  intros cid o st H. apply ObjectId_whole in H.
  apply (lookup_parsed cid (Whole o) st H).
Qed.

Lemma get_consultation_invalid :
  forall consultation_id st,
    ObjectId_str consultation_id = None ->
    get_consultation consultation_id st =
    (st, Raised (HTTPException 404 "Invalid consultation id")).
Proof.
  intros cid st H. unfold get_consultation.
  apply bind_raised, lookup_invalid, H.
Qed.

Lemma send_message_invalid :
  forall consultation_id payload st,
    ObjectId_str consultation_id = None ->
    send_message consultation_id payload st =
    (st, Raised (HTTPException 404 "Invalid consultation id")).
Proof.
  intros cid payload st H. unfold send_message.
  apply bind_raised, lookup_invalid, H.
Qed.

Lemma list_messages_invalid :
  forall consultation_id st,
    ObjectId_str consultation_id = None ->
    list_messages consultation_id st =
    (st, Raised (HTTPException 404 "Invalid consultation id")).
Proof.
  intros cid st H. unfold list_messages. apply bind_raised.
  unfold try_except, ObjectId_of. rewrite H. reflexivity.
Qed.

Lemma list_messages_valid :
  forall consultation_id oid st,
    ObjectId_str consultation_id = Some oid ->
    list_messages consultation_id st =
    each_with_public_id (messages_of consultation_id st) st.
Proof.
  intros cid oid st H. unfold list_messages.
  assert (Htry : try_except (ObjectId_of cid)
                   (raise (HTTPException 404 "Invalid consultation id")) st
                 = (st, Ok oid)).
  { unfold try_except, ObjectId_of. rewrite H. reflexivity. }
  rewrite (bind_run _ _ _ Htry). reflexivity.
Qed.

Lemma get_consultation_unknown :
  forall consultation_id st,
    unknown_id consultation_id st ->
    get_consultation consultation_id st =
    (st, Raised (HTTPException 404 "Consultation not found")).
Proof.
  intros cid st (oid & Hid & Hfind). unfold get_consultation.
  rewrite (bind_run _ _ st (eq_trans (lookup_parsed cid oid st Hid) Hfind)).
  reflexivity.
Qed.

Lemma send_message_unknown :
  forall consultation_id payload st,
    unknown_id consultation_id st ->
    send_message consultation_id payload st =
    (st, Raised (HTTPException 404 "Consultation not found")).
Proof.
  intros cid payload st (oid & Hid & Hfind). unfold send_message.
  rewrite (bind_run _ _ st (eq_trans (lookup_parsed cid oid st Hid) Hfind)).
  reflexivity.
Qed.

(** An identifier that does not name twelve bytes reaches no consultation:
    [get_consultation] and [send_message] answer 404 and leave the store. *)
Lemma ObjectId_none_cases :
  forall s,
    ObjectId s = None ->
    ObjectId_str s = None \/ exists bytes, ObjectId_str s = Some (Short bytes).
Proof.
  intros s H. unfold ObjectId in H.
  destruct (ObjectId_str s) as [[o|bytes]|]; try discriminate H.
  - right. exists bytes. reflexivity.
  - left. reflexivity.
Qed.

Lemma short_id_unknown :
  forall s bytes st, ObjectId_str s = Some (Short bytes) -> unknown_id s st.
Proof.
  intros s bytes st H. exists (Short bytes). split; [exact H|reflexivity].
Qed.

Lemma get_consultation_not_whole :
  forall consultation_id st,
    ObjectId consultation_id = None ->
    exists detail,
      get_consultation consultation_id st =
      (st, Raised (HTTPException 404 detail)).
Proof.
  intros cid st H. destruct (ObjectId_none_cases cid H) as [E|[bytes E]].
  - eexists. apply get_consultation_invalid, E.
  - eexists. apply get_consultation_unknown, (short_id_unknown cid bytes st E).
Qed.

Lemma send_message_not_whole :
  forall consultation_id payload st,
    ObjectId consultation_id = None ->
    exists detail,
      send_message consultation_id payload st =
      (st, Raised (HTTPException 404 detail)).
Proof.
  intros cid payload st H.
  destruct (ObjectId_none_cases cid H) as [E|[bytes E]].
  - eexists. apply send_message_invalid, E.
  - eexists. apply send_message_unknown, (short_id_unknown cid bytes st E).
Qed.

Lemma whole_id_unknown :
  forall consultation_id o st,
    ObjectId consultation_id = Some o ->
    find_one "consultation" [("_id", VObjectId o)] st = (st, Ok None) ->
    unknown_id consultation_id st.
Proof.
  intros cid o st Hid Hfind. exists (Whole o).
  split; [apply ObjectId_whole, Hid | exact Hfind].
Qed.


(* ------------------------------------------------------------------ *)
(** ** Sending a message *)

Lemma inserted_ids_below :
  forall st name data n,
    ids_below (next_oid st) (collections st n) ->
    ids_below (next_oid (inserted st name data))
              (collections (inserted st name data) n).
Proof.
  intros st name data n Hb d o Hin Hd.
  cbn [inserted next_oid collections] in *.
  destruct (String.eqb_spec n name) as [E|E].
  - subst n. apply in_app_or in Hin as [Hin|[Hin|[]]].
    + specialize (Hb d o Hin Hd). lia.
    + subst d. rewrite stamped_id in Hd. injection Hd as Hd. lia.
  - specialize (Hb d o Hin Hd). lia.
Qed.

(** Inserting keeps the identifiers of the store unique. *)
Lemma inserted_store_ok :
  forall st name data, store_ok st -> store_ok (inserted st name data).
Proof.
  intros st name data [Hc Hm]. split; apply inserted_ids_below; assumption.
Qed.

(** [send_message] once the consultation is found: the user message is
    written, then [meta] is validated. *)
Lemma send_message_found :
  forall consultation_id payload o cons st,
    ObjectId consultation_id = Some o ->
    find_one "consultation" [("_id", VObjectId o)] st = (st, Ok (Some cons)) ->
    send_message consultation_id payload st =
    let st1 := inserted st "message" (user_msg consultation_id payload) in
    match Schema.ConsultationCreate_validate (meta_kwargs cons) with
    | None => (st1, Raised ValidationError)
    | Some meta =>
        let reply_text := generate_advice (content payload) meta in
        (inserted_id <-
           create_document "message" (assistant_msg consultation_id reply_text) ;;
         o <- ObjectId_of inserted_id ;;
         saved <- find_one_by_id "message" o ;;
         with_public_id saved) st1
    end.
Proof.
  intros cid payload o cons st Hid Hfind. unfold send_message.
  rewrite (bind_run _ _ st (eq_trans (lookup_valid cid o st Hid) Hfind)).
  rewrite (dict_get_some_not_falsy _ _ _ (find_one_found_has_id _ _ _ _ _ Hfind)).
  cbn [or_raise].
  rewrite (bind_run _ _ _ (eq_refl : ret _ _ = (_, Ok _))).
  rewrite (bind_run _ _ _ (create_document_run _ _ _)).
  fold (user_msg cid payload). fold (meta_kwargs cons).
  cbv zeta.
  destruct (Schema.ConsultationCreate_validate (meta_kwargs cons)) as [meta|];
    reflexivity.
Qed.

(** The run of [send_message] that answers. *)
Lemma send_message_run :
  forall consultation_id payload o cons meta st,
    store_ok st -> ids_left 2 st ->
    ObjectId consultation_id = Some o ->
    find_one "consultation" [("_id", VObjectId o)] st = (st, Ok (Some cons)) ->
    Schema.ConsultationCreate_validate (meta_kwargs cons) = Some meta ->
    let st1 := inserted st "message" (user_msg consultation_id payload) in
    let reply := assistant_msg consultation_id
                   (generate_advice (content payload) meta) in
    send_message consultation_id payload st =
    with_public_id (Some (stamped st1 reply)) (inserted st1 "message" reply).
Proof.
  intros cid payload o cons meta st Hok Hleft Hid Hfind Hmeta st1 reply.
  rewrite (send_message_found cid payload o cons st Hid Hfind).
  cbv zeta. rewrite Hmeta. fold st1. fold reply.
  rewrite (bind_run _ _ _ (create_document_run _ _ _)).
  assert (Hnew : ObjectId (oid_str (next_oid st1)) = Some (next_oid st1))
    by (apply ObjectId_oid_str; unfold ids_left in Hleft;
        cbn [st1 inserted next_oid]; lia).
  rewrite (bind_run _ _ _ (ObjectId_of_whole _ _ _ Hnew)).
  cbn [find_one_by_id].
  assert (Hb : ids_below (next_oid st1) (collections st1 "message")).
  { apply inserted_ids_below. apply Hok. }
  rewrite (bind_run _ _ _ (refetch_inserted st1 "message" reply Hb)).
  reflexivity.
Qed.

(** C3. Every call to [send_message] that answers, on a store whose
    identifiers are unique and not exhausted, has added exactly two
    documents to the message collection and touched no other collection:
    first one with role [user] holding the request content, then one with
    role [assistant] holding the generated advice; and the answer is the
    assistant message alone, in its public form. A call on an existing
    consultation whose fields validate does answer. *)
Theorem send_message_two_inserts :
  forall consultation_id payload st,
    store_ok st -> ids_left 2 st ->
    (forall st' answer,
        send_message consultation_id payload st = (st', Ok answer) ->
        two_messages_stored consultation_id payload st st' answer) /\
    (forall o cons meta,
        ObjectId consultation_id = Some o ->
        find_one "consultation" [("_id", VObjectId o)] st
          = (st, Ok (Some cons)) ->
        Schema.ConsultationCreate_validate (meta_kwargs cons) = Some meta ->
        exists st' answer,
          send_message consultation_id payload st = (st', Ok answer)).
Proof.
  intros cid payload st Hok Hleft. split.
  - intros st' answer Hrun.
    destruct (ObjectId cid) as [o|] eqn:Hid;
      [|destruct (send_message_not_whole cid payload st Hid) as [dt Hd];
        rewrite Hd in Hrun; discriminate Hrun].
    pose proof (find_one_pure "consultation" [("_id", VObjectId o)] st) as Hfind.
    destruct (hd_error
                (List.filter (matches [("_id", VObjectId o)])
                             (collections st "consultation")))
      as [cons|] eqn:Hhd.
    2:{ rewrite (send_message_unknown cid payload st
                   (whole_id_unknown cid o st Hid Hfind)) in Hrun.
        discriminate Hrun. }
    destruct (Schema.ConsultationCreate_validate (meta_kwargs cons))
      as [meta|] eqn:Hmeta.
    2:{ rewrite (send_message_found cid payload o cons st Hid Hfind) in Hrun.
        cbv zeta in Hrun. rewrite Hmeta in Hrun. discriminate Hrun. }
    rewrite (send_message_run cid payload o cons meta st Hok Hleft Hid Hfind
               Hmeta) in Hrun.
    cbv zeta in Hrun.
    set (st1 := inserted st "message" (user_msg cid payload)) in *.
    set (reply := assistant_msg cid (generate_advice (content payload) meta))
      in *.
    pose proof (with_public_id_run (stamped st1 reply) _
                  (inserted st1 "message" reply) (stamped_id st1 reply))
      as Hpub.
    assert (Hst : inserted st1 "message" reply = st')
      by (rewrite Hpub in Hrun; congruence).
    subst st'. clear Hpub. rename Hrun into Hpub.
    exists (stamped st (user_msg cid payload)), (stamped st1 reply),
           (generate_advice (content payload) meta).
    split.
    { rewrite inserted_same. unfold st1 at 1. rewrite inserted_same.
      rewrite <- app_assoc. reflexivity. }
    split.
    { intros name Hne. rewrite inserted_other by exact Hne.
      unfold st1. apply inserted_other. exact Hne. }
    repeat split;
      try (rewrite stamped_field by discriminate; reflexivity).
    + exists cons, meta. split; [exact Hmeta|reflexivity].
    + exact Hpub.
    + rewrite (with_public_id_field _ _ _ "role" Hpub) by discriminate.
      rewrite stamped_field by discriminate. reflexivity.
    + rewrite (with_public_id_field _ _ _ "content" Hpub) by discriminate.
      rewrite stamped_field by discriminate. reflexivity.
  - intros o cons meta Hid Hfind Hmeta.
    rewrite (send_message_run cid payload o cons meta st Hok Hleft Hid Hfind
               Hmeta).
    cbv zeta. eexists _, _. apply with_public_id_run, stamped_id.
Qed.

Lemma sparse_store_ok : store_ok sparse_store.
Proof.
  split; intros d o Hin Hd; cbn in Hin.
  - destruct Hin as [<-|[]]. cbn in Hd. injection Hd as <-. reflexivity.
  - destruct Hin.
Qed.

Lemma sparse_store_ids_left : ids_left 2 sparse_store.
Proof. unfold ids_left. vm_compute. discriminate. Qed.

Lemma send_message_two_inserts_witness :
  exists st' answer,
    send_message zero_id (mk_MessageIn "hi") sparse_store = (st', Ok answer) /\
    two_messages_stored zero_id (mk_MessageIn "hi") sparse_store st' answer.
Proof.
  destruct (proj2 (send_message_two_inserts zero_id (mk_MessageIn "hi")
                     sparse_store sparse_store_ok sparse_store_ids_left)
              0%N
              [ ("_id", VObjectId 0); ("business_name", VStr "Acme");
                ("goal", VStr "grow sales") ]
              (mk_ConsultationCreate "Acme" "" "idea" "grow sales" None)
              eq_refl eq_refl eq_refl)
    as (st' & answer & Hrun).
  exists st', answer. split.
  - exact Hrun.
  - apply (proj1 (send_message_two_inserts zero_id (mk_MessageIn "hi")
                    sparse_store sparse_store_ok sparse_store_ids_left)
             st' answer Hrun).
Defined.

Lemma meta_kwargs_validate :
  forall cons n,
    missing_or_text cons "business_name" ->
    missing_or_text cons "industry" ->
    missing_or_text cons "stage" ->
    missing_or_text cons "goal" ->
    Schema.optional_str cons "notes" = Some n ->
    Schema.ConsultationCreate_validate (meta_kwargs cons) =
    Some (meta_of cons n).
Proof.
  intros cons n Hb Hi Hs Hg Hn.
  unfold Schema.optional_str in Hn.
  unfold Schema.ConsultationCreate_validate, Schema.required_str,
    Schema.default_str, Schema.optional_str, meta_kwargs, meta_of,
    dict_get_default, text_or.
  destruct Hb as [Hb|[b Hb]], Hi as [Hi|[i Hi]], Hs as [Hs|[s Hs]],
           Hg as [Hg|[g Hg]];
    rewrite Hb, Hi, Hs, Hg;
    destruct (dict_get cons "notes") as [[]|];
    try discriminate Hn; injection Hn as <-; reflexivity.
Qed.

(** C10. [send_message] does not fail on fields missing from the stored
    consultation: where the document found for the id lacks
    [business_name], [industry] or [goal] the advice is generated with the
    empty string in its place, and with [idea] in place of a missing
    [stage]; a field that is present keeps its text. *)
Theorem missing_fields_take_defaults :
  forall consultation_id payload o cons n st,
    store_ok st -> ids_left 2 st ->
    ObjectId consultation_id = Some o ->
    find_one "consultation" [("_id", VObjectId o)] st = (st, Ok (Some cons)) ->
    missing_or_text cons "business_name" ->
    missing_or_text cons "industry" ->
    missing_or_text cons "stage" ->
    missing_or_text cons "goal" ->
    Schema.optional_str cons "notes" = Some n ->
    exists meta st' answer,
      Schema.ConsultationCreate_validate (meta_kwargs cons) = Some meta /\
      (dict_get cons "business_name" = None -> business_name meta = "") /\
      (dict_get cons "industry" = None -> industry meta = "") /\
      (dict_get cons "goal" = None -> goal meta = "") /\
      (dict_get cons "stage" = None -> stage meta = "idea") /\
      (forall s, dict_get cons "business_name" = Some (VStr s) ->
                 business_name meta = s) /\
      (forall s, dict_get cons "industry" = Some (VStr s) -> industry meta = s) /\
      (forall s, dict_get cons "goal" = Some (VStr s) -> goal meta = s) /\
      (forall s, dict_get cons "stage" = Some (VStr s) -> stage meta = s) /\
      send_message consultation_id payload st = (st', Ok answer) /\
      dict_get answer "content" =
        Some (VStr (generate_advice (content payload) meta)).
Proof.
  intros cid payload o cons n st Hok Hleft Hid Hfind Hb Hi Hs Hg Hn.
  pose proof (meta_kwargs_validate cons n Hb Hi Hs Hg Hn) as Hmeta.
  pose proof (send_message_run cid payload o cons (meta_of cons n) st
                Hok Hleft Hid Hfind Hmeta) as Hrun.
  cbv zeta in Hrun.
  set (st1 := inserted st "message" (user_msg cid payload)) in *.
  set (reply := assistant_msg cid
                  (generate_advice (content payload) (meta_of cons n))) in *.
  pose proof (with_public_id_run (stamped st1 reply) _
                (inserted st1 "message" reply) (stamped_id st1 reply))
    as Hpub.
  exists (meta_of cons n). eexists _, _.
  split; [exact Hmeta|].
  do 4 (split;
        [ intros H; cbn [meta_of business_name industry goal stage];
          unfold text_or; rewrite H; reflexivity | ]).
  do 4 (split;
        [ intros s H; cbn [meta_of business_name industry goal stage];
          unfold text_or; rewrite H; reflexivity | ]).
  split.
  - rewrite Hrun. exact Hpub.
  - rewrite (with_public_id_field _ _ _ "content" Hpub) by discriminate.
    rewrite stamped_field by discriminate. reflexivity.
Qed.

Lemma missing_fields_take_defaults_witness :
  exists meta st' answer,
    Schema.ConsultationCreate_validate
      (meta_kwargs [ ("_id", VObjectId 0); ("business_name", VStr "Acme");
                     ("goal", VStr "grow sales") ]) = Some meta /\
    industry meta = "" /\
    stage meta = "idea" /\
    business_name meta = "Acme" /\
    send_message zero_id (mk_MessageIn "hi") sparse_store = (st', Ok answer) /\
    dict_get answer "content" = Some (VStr (generate_advice "hi" meta)).
Proof.
  destruct (missing_fields_take_defaults zero_id (mk_MessageIn "hi") 0%N
              [ ("_id", VObjectId 0); ("business_name", VStr "Acme");
                ("goal", VStr "grow sales") ]
              None sparse_store
              sparse_store_ok sparse_store_ids_left eq_refl eq_refl
              (or_intror (ex_intro _ "Acme" eq_refl))
              (or_introl eq_refl)
              (or_introl eq_refl)
              (or_intror (ex_intro _ "grow sales" eq_refl))
              eq_refl)
    as (meta & st' & answer & Hmeta & _ & Hi & _ & Hs & Hb & _ & _ & _ & Hrun & Hc).
  exists meta, st', answer.
  split; [exact Hmeta|].
  split; [apply Hi; reflexivity|].
  split; [apply Hs; reflexivity|].
  split; [apply (Hb "Acme"); reflexivity|].
  split; [exact Hrun | exact Hc].
Defined.

(* ------------------------------------------------------------------ *)
(** ** Further properties: serialization *)

(** X1. Whatever the document, [serialize_doc] returns a mapping with
    the same keys in the same order that holds no identifier and no
    timestamp at any depth, and looking a key up in it gives the converted
    value of that key. *)
Theorem serialize_doc_shape :
  forall doc,
    plain_doc (serialize_doc doc) = true /\
    map fst (serialize_doc doc) = map fst doc /\
    (forall k, dict_get (serialize_doc doc) k =
               option_map _convert (dict_get doc k)).
Proof.
  intros doc. split; [apply serialize_doc_is_plain|]. split.
  - unfold serialize_doc. rewrite map_map. reflexivity.
  - intros k. apply dict_get_serialize_doc.
Qed.

(* ------------------------------------------------------------------ *)
(** ** Further properties: listing *)

Lemma with_public_id_cases :
  forall it st,
    with_public_id (Some it) st =
    (st, match dict_get it "_id" with
         | Some _ => Ok (public_form it)
         | None => Raised (KeyError "_id")
         end).
Proof.
  intros it st.
  unfold with_public_id, serialize_found, bind, or_raise, ret, raise, dict_pop,
    public_form.
  cbn [option_map]. rewrite dict_get_serialize_doc.
  destruct (dict_get it "_id"); reflexivity.
Qed.

Lemma each_with_public_id_store :
  forall items st, fst (each_with_public_id items st) = st.
Proof.
  intros items st.
  destruct (each_with_public_id_outcome items st) as [[out H]|H];
    rewrite H; reflexivity.
Qed.

Lemma each_with_public_id_answer :
  forall items st st' out,
    each_with_public_id items st = (st', Ok out) ->
    out = map public_form items /\ docs_have_id items.
Proof.
  induction items as [|it rest IH]; intros st st' out H.
  - cbn in H. injection H as _ <-. split; [reflexivity|]. intros d [].
  - cbn [each_with_public_id] in H. unfold bind at 1 in H.
    rewrite with_public_id_cases in H.
    destruct (dict_get it "_id") as [v|] eqn:Hid; [|discriminate H].
    unfold bind at 1 in H.
    destruct (each_with_public_id rest st) as [st1 [out1|e]] eqn:Hrest;
      [|discriminate H].
    cbn in H. injection H as _ <-.
    destruct (IH st st1 out1 Hrest) as [-> Hall].
    split; [reflexivity|].
    intros d [<-|Hin]; [exists v; exact Hid | apply Hall, Hin].
Qed.

Lemma each_with_public_id_all :
  forall items st,
    docs_have_id items ->
    each_with_public_id items st = (st, Ok (map public_form items)).
Proof.
  induction items as [|it rest IH]; intros st Hall; [reflexivity|].
  cbn [each_with_public_id]. unfold bind at 1.
  rewrite with_public_id_cases.
  destruct (Hall it (or_introl eq_refl)) as [v Hv]. rewrite Hv.
  unfold bind at 1.
  rewrite IH by (intros d Hd; apply Hall; right; exact Hd).
  reflexivity.
Qed.

Lemma list_consultations_run :
  forall st,
    list_consultations st =
    each_with_public_id
      (firstn 50 (List.filter (matches []) (collections st "consultation"))) st.
Proof. reflexivity. Qed.

Lemma matches_empty_filter :
  forall docs, List.filter (matches []) docs = docs.
Proof.
  induction docs as [|d docs IH]; [reflexivity|].
  cbn [List.filter matches forallb]. rewrite IH. reflexivity.
Qed.

Lemma list_messages_cases :
  forall consultation_id st,
    list_messages consultation_id st =
    match ObjectId_str consultation_id with
    | Some _ => each_with_public_id (messages_of consultation_id st) st
    | None => (st, Raised (HTTPException 404 "Invalid consultation id"))
    end.
Proof.
  intros cid st. destruct (ObjectId_str cid) as [oid|] eqn:Hid.
  - apply (list_messages_valid cid oid st Hid).
  - apply list_messages_invalid, Hid.
Qed.

Lemma get_consultation_cases :
  forall consultation_id st,
    get_consultation consultation_id st =
    match ObjectId_str consultation_id with
    | None => (st, Raised (HTTPException 404 "Invalid consultation id"))
    | Some (Short _) =>
        (st, Raised (HTTPException 404 "Consultation not found"))
    | Some (Whole o) =>
        match hd_error (List.filter (matches [("_id", VObjectId o)])
                                    (collections st "consultation")) with
        | None => (st, Raised (HTTPException 404 "Consultation not found"))
        | Some doc => (st, Ok (public_form doc))
        end
    end.
Proof.
  intros cid st. destruct (ObjectId_str cid) as [[o|bytes]|] eqn:Hid.
  - assert (Ho : ObjectId cid = Some o) by (apply ObjectId_whole, Hid).
    pose proof (find_one_pure "consultation" [("_id", VObjectId o)] st) as Hf.
    destruct (hd_error _) as [doc|] eqn:Hhd.
    + rewrite (get_consultation_run cid o doc st Ho Hf).
      rewrite with_public_id_cases.
      rewrite (find_one_found_has_id _ _ _ _ _ Hf). reflexivity.
    + apply get_consultation_unknown, (whole_id_unknown cid o st Ho Hf).
  - apply get_consultation_unknown, (short_id_unknown cid bytes st Hid).
  - apply get_consultation_invalid, Hid.
Qed.

(** X2. The reading routes never write: whatever the identifier and
    whatever they answer, [get_consultation], [list_consultations] and
    [list_messages] return the store they were given. *)
Theorem reading_routes_keep_store :
  forall consultation_id st,
    fst (get_consultation consultation_id st) = st /\
    fst (list_consultations st) = st /\
    fst (list_messages consultation_id st) = st.
Proof.
  intros cid st. split; [|split].
  - rewrite get_consultation_cases.
    destruct (ObjectId_str cid) as [[o|bytes]|];
      [destruct (hd_error _)| |]; reflexivity.
  - rewrite list_consultations_run. apply each_with_public_id_store.
  - rewrite list_messages_cases.
    destruct (ObjectId_str cid);
      [apply each_with_public_id_store|reflexivity].
Qed.

(** X3. The limits are hard caps: an answer of [list_consultations] has
    at most 50 entries and an answer of [list_messages] at most 200, and
    they are the public forms of the oldest stored documents, in the order
    of insertion. *)
Theorem listing_is_capped :
  forall consultation_id st,
    (forall st' out,
        list_consultations st = (st', Ok out) ->
        (List.length out <= 50)%nat /\
        out = map public_form (firstn 50 (collections st "consultation"))) /\
    (forall st' out,
        list_messages consultation_id st = (st', Ok out) ->
        (List.length out <= 200)%nat /\
        out = map public_form
                (firstn 200
                   (List.filter (matches (of_consultation consultation_id))
                                (collections st "message")))).
Proof.
  intros cid st. split; intros st' out H.
  - rewrite list_consultations_run, matches_empty_filter in H.
    apply each_with_public_id_answer in H as [-> _].
    split; [|reflexivity].
    rewrite length_map. apply firstn_le_length.
  - rewrite list_messages_cases in H.
    destruct (ObjectId_str cid); [|discriminate H].
    apply each_with_public_id_answer in H as [-> _].
    split; [|reflexivity].
    rewrite length_map. apply firstn_le_length.
Qed.

Lemma listing_is_capped_witness :
  ((List.length
      (map public_form (firstn 50 (collections crowded_store "consultation")))
    <= 50)%nat /\
   map public_form (firstn 50 (collections crowded_store "consultation")) =
   map public_form (firstn 50 (collections crowded_store "consultation"))) /\
  ((List.length (map public_form (messages_of zero_id crowded_store))
    <= 200)%nat /\
   map public_form (messages_of zero_id crowded_store) =
   map public_form
     (firstn 200
        (List.filter (matches (of_consultation zero_id))
                     (collections crowded_store "message")))) /\
  List.length (collections crowded_store "consultation") = 55%nat /\
  List.length (List.filter (matches (of_consultation zero_id))
                           (collections crowded_store "message")) = 207%nat /\
  List.length (map public_form (messages_of zero_id crowded_store)) = 200%nat.
Proof.
  split; [|split; [|split; [|split]]].
  - apply (proj1 (listing_is_capped zero_id crowded_store) crowded_store).
    vm_compute. reflexivity.
  - apply (proj2 (listing_is_capped zero_id crowded_store) crowded_store).
    vm_compute. reflexivity.
  - vm_compute. reflexivity.
  - vm_compute. reflexivity.
  - vm_compute. reflexivity.
Defined.

Lemma value_eqb_str :
  forall v s, value_eqb v (VStr s) = true <-> v = VStr s.
Proof.
  intros v s. split.
  - intros H. destruct v; try discriminate H.
    cbn in H. apply String.eqb_eq in H. subst. reflexivity.
  - intros ->. cbn. apply String.eqb_refl.
Qed.

Lemma matches_of_consultation :
  forall consultation_id d,
    matches (of_consultation consultation_id) d = true <->
    dict_get d "consultation_id" = Some (VStr consultation_id).
Proof.
  intros cid d. unfold matches, of_consultation. cbn [forallb fst snd].
  rewrite andb_true_r. split.
  - destruct (dict_get d "consultation_id") as [v|]; [|discriminate].
    intros H. apply value_eqb_str in H. subst v. reflexivity.
  - intros ->. apply value_eqb_str. reflexivity.
Qed.

Lemma public_form_field :
  forall it k,
    k <> "id" -> k <> "_id" ->
    dict_get (public_form it) k = option_map _convert (dict_get it k).
Proof.
  intros it k H1 H2. unfold public_form.
  rewrite dict_get_set_other, dict_get_remove_other by congruence.
  apply dict_get_serialize_doc.
Qed.

Lemma public_form_id :
  forall it v,
    dict_get it "_id" = Some v ->
    dict_get (public_form it) "id" = Some (_convert v).
Proof.
  intros it v H. unfold public_form.
  rewrite dict_get_set_same, dict_get_serialize_doc, H. reflexivity.
Qed.


(* ------------------------------------------------------------------ *)
(** ** Identifiers that are malformed or unknown: the three routes *)





(** X4. [list_messages] answers only with messages of the consultation
    asked for: every entry of an answer carries the requested id as its
    [consultation_id], and carries a public [id]. *)
Theorem list_messages_only_of_consultation :
  forall consultation_id st st' out,
    list_messages consultation_id st = (st', Ok out) ->
    Forall (fun s =>
              dict_get s "consultation_id" = Some (VStr consultation_id) /\
              exists v, dict_get s "id" = Some v)
           out.
Proof.
  intros cid st st' out H.
  rewrite list_messages_cases in H.
  destruct (ObjectId_str cid); [|discriminate H].
  apply each_with_public_id_answer in H as [-> Hids].
  apply Forall_forall. intros s Hs.
  apply in_map_iff in Hs as (d & <- & Hd).
  split.
  - rewrite public_form_field by discriminate.
    unfold messages_of in Hd.
    assert (Hin : In d (List.filter (matches (of_consultation cid))
                                    (collections st "message"))).
    { revert Hd. generalize 200%nat. intros n Hd.
      rewrite <- (firstn_skipn n (List.filter _ _)).
      apply in_or_app. left. exact Hd. }
    apply filter_In in Hin as [_ Hm].
    apply matches_of_consultation in Hm. rewrite Hm. reflexivity.
  - destruct (Hids d Hd) as [v Hv]. exists (_convert v).
    apply public_form_id, Hv.
Qed.

Lemma list_messages_only_of_consultation_witness :
  Forall (fun s =>
            dict_get s "consultation_id" = Some (VStr zero_id) /\
            exists v, dict_get s "id" = Some v)
         (map public_form (messages_of zero_id crowded_store)) /\
  List.length (map public_form (messages_of zero_id crowded_store)) = 200%nat /\
  List.length (List.filter (matches (of_consultation other_id))
                           (collections crowded_store "message")) = 23%nat.
Proof.
  split; [|split].
  - apply (list_messages_only_of_consultation zero_id crowded_store
             crowded_store).
    vm_compute. reflexivity.
  - vm_compute. reflexivity.
  - vm_compute. reflexivity.
Defined.


(* ------------------------------------------------------------------ *)
(** ** Further properties: what the writing routes do to the store *)

Lemma refetch_tail_store :
  forall name s st,
    fst ((o <- ObjectId_of s ;;
          saved <- find_one_by_id name o ;;
          with_public_id saved) st) = st.
Proof.
  intros name s st. unfold ObjectId_of.
  destruct (ObjectId_str s) as [[o|bytes]|]; cbn [or_raise];
    [| reflexivity | reflexivity].
  rewrite (bind_run _ _ _ (eq_refl : ret _ _ = (_, Ok _))).
  cbn [find_one_by_id].
  rewrite (bind_run _ _ _ (find_one_pure _ _ _)).
  destruct (hd_error _) as [doc|]; [|reflexivity].
  rewrite with_public_id_cases. reflexivity.
Qed.

Lemma create_consultation_store :
  forall payload st,
    fst (create_consultation payload st) =
    inserted st "consultation" (Schema.model_dump payload).
Proof.
  intros payload st. unfold create_consultation.
  rewrite (bind_run _ _ _ (create_document_run _ _ _)).
  apply refetch_tail_store.
Qed.

(** The stores [send_message] can leave: the one it was given, that store
    with the user message, or that store with both messages. *)
Lemma send_message_store :
  forall consultation_id payload st,
    let st1 := inserted st "message" (user_msg consultation_id payload) in
    fst (send_message consultation_id payload st) = st \/
    fst (send_message consultation_id payload st) = st1 \/
    exists reply_text,
      fst (send_message consultation_id payload st) =
      inserted st1 "message" (assistant_msg consultation_id reply_text).
Proof.
  intros cid payload st st1.
  destruct (ObjectId cid) as [o|] eqn:Hid;
    [|left; destruct (send_message_not_whole cid payload st Hid) as [dt Hd];
      rewrite Hd; reflexivity].
  pose proof (find_one_pure "consultation" [("_id", VObjectId o)] st) as Hfind.
  destruct (hd_error _) as [cons|] eqn:Hhd.
  2:{ left. rewrite (send_message_unknown cid payload st
                       (whole_id_unknown cid o st Hid Hfind)).
      reflexivity. }
  rewrite (send_message_found cid payload o cons st Hid Hfind). cbv zeta.
  fold st1.
  destruct (Schema.ConsultationCreate_validate (meta_kwargs cons)) as [meta|];
    [|right; left; reflexivity].
  right. right. exists (generate_advice (content payload) meta).
  rewrite (bind_run _ _ _ (create_document_run _ _ _)).
  apply refetch_tail_store.
Qed.

Lemma inserted_docs_have_id :
  forall st name data n,
    docs_have_id (collections st n) ->
    docs_have_id (collections (inserted st name data) n).
Proof.
  intros st name data n Hall d Hin.
  cbn [inserted collections] in Hin.
  destruct (String.eqb_spec n name) as [E|E].
  - subst n. apply in_app_or in Hin as [Hin|[Hin|[]]].
    + apply Hall, Hin.
    + subst d. eexists. apply stamped_id.
  - apply Hall, Hin.
Qed.

Lemma inserted_store_complete :
  forall st name data,
    store_complete st -> store_complete (inserted st name data).
Proof.
  intros st name data [Hc Hm].
  split; apply inserted_docs_have_id; assumption.
Qed.

(** X6. The writing routes keep the store well formed: if no stored
    [_id] is one the generator has yet to hand out and every stored
    document carries an [_id], the same holds of the store that
    [create_consultation] or [send_message] leaves, whatever they answer. *)
Theorem writing_routes_keep_store_ok :
  forall consultation_id payload message st,
    store_ok st -> store_complete st ->
    (store_ok (fst (create_consultation payload st)) /\
     store_complete (fst (create_consultation payload st))) /\
    (store_ok (fst (send_message consultation_id message st)) /\
     store_complete (fst (send_message consultation_id message st))).
Proof.
  intros cid payload message st Hok Hall. split.
  - rewrite create_consultation_store.
    split; [apply inserted_store_ok | apply inserted_store_complete];
      assumption.
  - destruct (send_message_store cid message st) as [H|[H|[reply H]]];
      rewrite H.
    + split; assumption.
    + split; [apply inserted_store_ok | apply inserted_store_complete];
        assumption.
    + split; [do 2 apply inserted_store_ok | do 2 apply inserted_store_complete];
        assumption.
Qed.

Lemma empty_store_complete : store_complete empty_store.
Proof. split; intros d []. Qed.

Lemma writing_routes_keep_store_ok_witness :
  (store_ok (fst (create_consultation acme empty_store)) /\
   store_complete (fst (create_consultation acme empty_store))) /\
  (store_ok (fst (send_message zero_id (mk_MessageIn "hi") empty_store)) /\
   store_complete (fst (send_message zero_id (mk_MessageIn "hi") empty_store))).
Proof.
  apply (writing_routes_keep_store_ok zero_id acme (mk_MessageIn "hi")
           empty_store empty_store_ok empty_store_complete).
Defined.

Lemma each_with_public_id_indep :
  forall items st st',
    snd (each_with_public_id items st) = snd (each_with_public_id items st').
Proof.
  induction items as [|it rest IH]; intros st st'; [reflexivity|].
  cbn [each_with_public_id]. unfold bind at 1 3.
  rewrite !with_public_id_cases.
  destruct (dict_get it "_id"); [|reflexivity].
  unfold bind. specialize (IH st st').
  destruct (each_with_public_id rest st) as [s1 [o1|e1]],
           (each_with_public_id rest st') as [s2 [o2|e2]];
    cbn in IH |- *; congruence.
Qed.

Lemma send_message_appends :
  forall consultation_id payload st,
    (forall name, name <> "message" ->
       collections (fst (send_message consultation_id payload st)) name =
       collections st name) /\
    exists added,
      collections (fst (send_message consultation_id payload st)) "message" =
        (collections st "message" ++ added)%list /\
      Forall (fun d => dict_get d "consultation_id" =
                       Some (VStr consultation_id)) added.
Proof.
  intros cid payload st.
  assert (Hu : forall s, dict_get (stamped s (user_msg cid payload))
                                  "consultation_id" = Some (VStr cid))
    by (intros s; rewrite stamped_field by discriminate; reflexivity).
  assert (Ha : forall s r, dict_get (stamped s (assistant_msg cid r))
                                    "consultation_id" = Some (VStr cid))
    by (intros s r; rewrite stamped_field by discriminate; reflexivity).
  destruct (send_message_store cid payload st) as [H|[H|[reply H]]];
    rewrite H; split.
  - reflexivity.
  - exists []. rewrite app_nil_r. split; [reflexivity|constructor].
  - intros name Hne. apply inserted_other, Hne.
  - eexists [_]. rewrite inserted_same. split; [reflexivity|].
    constructor; [apply Hu|constructor].
  - intros name Hne. rewrite !inserted_other by exact Hne. reflexivity.
  - eexists [_; _]. rewrite !inserted_same, <- app_assoc.
    split; [reflexivity|].
    constructor; [apply Hu|constructor; [apply Ha|constructor]].
Qed.

Lemma filter_other_consultation :
  forall consultation_id other added,
    other <> consultation_id ->
    Forall (fun d => dict_get d "consultation_id" =
                     Some (VStr consultation_id)) added ->
    List.filter (matches (of_consultation other)) added = [].
Proof.
  intros cid other added Hne Hall.
  induction Hall as [|d l Hd _ IH]; [reflexivity|].
  cbn [List.filter].
  destruct (matches (of_consultation other) d) eqn:E; [|exact IH].
  apply matches_of_consultation in E. rewrite Hd in E.
  injection E as E. congruence.
Qed.

(** X7. Sending to one identifier never changes what another lists:
    whatever [send_message] answers for an identifier, [list_messages]
    answers for every other identifier string as it did before, in
    particular for one that differs only in letter case and names the
    same [ObjectId]. *)
Theorem send_message_isolated :
  forall consultation_id other payload st,
    other <> consultation_id ->
    messages_of other (fst (send_message consultation_id payload st)) =
      messages_of other st /\
    snd (list_messages other (fst (send_message consultation_id payload st))) =
      snd (list_messages other st).
Proof.
  intros cid other payload st Hne.
  assert (Hm : messages_of other (fst (send_message cid payload st)) =
               messages_of other st).
  { destruct (send_message_appends cid payload st) as [_ (added & Hcoll & Hall)].
    unfold messages_of. fold (of_consultation other).
    rewrite Hcoll, filter_app.
    rewrite (filter_other_consultation cid other added Hne Hall).
    rewrite app_nil_r. reflexivity. }
  split; [exact Hm|].
  rewrite !list_messages_cases.
  destruct (ObjectId_str other); [|reflexivity].
  rewrite Hm. apply each_with_public_id_indep.
Qed.

Lemma send_message_isolated_witness :
  (messages_of lower_id
     (fst (send_message upper_id (mk_MessageIn "hi") paired_store)) =
     messages_of lower_id paired_store /\
   snd (list_messages lower_id
          (fst (send_message upper_id (mk_MessageIn "hi") paired_store))) =
     snd (list_messages lower_id paired_store)) /\
  ObjectId upper_id = Some 10%N /\
  ObjectId lower_id = Some 10%N /\
  status_of (snd (send_message upper_id (mk_MessageIn "hi") paired_store))
    = 200%N /\
  List.length
    (collections (fst (send_message upper_id (mk_MessageIn "hi") paired_store))
                 "message") = 3%nat /\
  List.length
    (messages_of upper_id
       (fst (send_message upper_id (mk_MessageIn "hi") paired_store)))
    = 2%nat /\
  List.length (messages_of lower_id paired_store) = 1%nat.
Proof.
  split.
  - apply (send_message_isolated upper_id lower_id (mk_MessageIn "hi")
             paired_store).
    discriminate.
  - repeat split; vm_compute; reflexivity.
Defined.

(* ------------------------------------------------------------------ *)
(** ** Further properties: how the routes compose *)

Lemma send_message_answer_inv :
  forall consultation_id payload st st' answer,
    store_ok st -> ids_left 2 st ->
    send_message consultation_id payload st = (st', Ok answer) ->
    exists o meta,
      ObjectId consultation_id = Some o /\
      let st1 := inserted st "message" (user_msg consultation_id payload) in
      let reply := assistant_msg consultation_id
                     (generate_advice (content payload) meta) in
      st' = inserted st1 "message" reply /\
      answer = public_form (stamped st1 reply).
Proof.
  intros cid payload st st' answer Hok Hleft Hrun.
  destruct (ObjectId cid) as [o|] eqn:Hid;
    [|destruct (send_message_not_whole cid payload st Hid) as [dt Hd];
      rewrite Hd in Hrun; discriminate Hrun].
  pose proof (find_one_pure "consultation" [("_id", VObjectId o)] st) as Hfind.
  destruct (hd_error _) as [cons|] eqn:Hhd.
  2:{ rewrite (send_message_unknown cid payload st
                 (whole_id_unknown cid o st Hid Hfind)) in Hrun.
      discriminate Hrun. }
  destruct (Schema.ConsultationCreate_validate (meta_kwargs cons))
    as [meta|] eqn:Hmeta.
  2:{ rewrite (send_message_found cid payload o cons st Hid Hfind) in Hrun.
      cbv zeta in Hrun. rewrite Hmeta in Hrun. discriminate Hrun. }
  rewrite (send_message_run cid payload o cons meta st Hok Hleft Hid Hfind
             Hmeta) in Hrun.
  cbv zeta in Hrun. rewrite with_public_id_cases, stamped_id in Hrun.
  exists o, meta. split; [reflexivity|]. cbv zeta.
  split; congruence.
Qed.

Lemma firstn_app_full {A : Type} n (l extra : list A) :
  (n <= List.length l)%nat -> firstn n (l ++ extra) = firstn n l.
Proof.
  intros Hlen. rewrite firstn_app.
  replace (n - List.length l)%nat with 0%nat by lia.
  cbn. apply app_nil_r.
Qed.

Lemma firstn_app_room {A : Type} n (l extra : list A) :
  (List.length l + List.length extra <= n)%nat ->
  firstn n (l ++ extra) = (l ++ extra)%list /\ firstn n l = l.
Proof.
  intros Hlen. split; apply firstn_all2.
  - rewrite length_app. exact Hlen.
  - lia.
Qed.

(** X8. A message that was sent is listed: when [send_message] answers
    on a well-formed store and the consultation then holds at most 200
    messages, [list_messages] for the same identifier answers with what it
    answered before followed by the user's message and by the answer of
    [send_message], in that order. *)
Theorem sent_messages_are_listed :
  forall consultation_id payload st st' answer,
    store_ok st -> ids_left 2 st -> store_complete st ->
    send_message consultation_id payload st = (st', Ok answer) ->
    (List.length (List.filter (matches (of_consultation consultation_id))
                              (collections st "message")) + 2 <= 200)%nat ->
    exists before user,
      list_messages consultation_id st = (st, Ok before) /\
      list_messages consultation_id st' =
        (st', Ok (before ++ [user; answer])%list) /\
      dict_get user "role" = Some (VStr "user") /\
      dict_get user "content" = Some (VStr (content payload)) /\
      dict_get answer "role" = Some (VStr "assistant").
Proof.
  intros cid payload st st' answer Hok Hleft Hall Hrun Hroom.
  destruct (send_message_answer_inv cid payload st st' answer Hok Hleft Hrun)
    as (o & meta & Hid & Hst & Hans).
  cbv zeta in Hst, Hans.
  set (st1 := inserted st "message" (user_msg cid payload)) in *.
  set (reply := assistant_msg cid (generate_advice (content payload) meta))
    in *.
  set (old := List.filter (matches (of_consultation cid))
                          (collections st "message")) in *.
  assert (Hu : matches (of_consultation cid) (stamped st (user_msg cid payload))
               = true).
  { apply matches_of_consultation. rewrite stamped_field by discriminate.
    reflexivity. }
  assert (Ha : matches (of_consultation cid) (stamped st1 reply) = true).
  { apply matches_of_consultation. rewrite stamped_field by discriminate.
    reflexivity. }
  assert (Hnew : List.filter (matches (of_consultation cid))
                             (collections st' "message") =
                 (old ++ [stamped st (user_msg cid payload);
                          stamped st1 reply])%list).
  { rewrite Hst, inserted_same. unfold st1 at 1. rewrite inserted_same.
    rewrite <- app_assoc, filter_app. cbn [List.filter app].
    rewrite Hu, Ha. reflexivity. }
  destruct (firstn_app_room 200 old
              [stamped st (user_msg cid payload); stamped st1 reply] Hroom)
    as [Hboth Hold].
  assert (Hall' : store_complete st').
  { rewrite Hst. do 2 apply inserted_store_complete. exact Hall. }
  assert (Hsub : forall s, docs_have_id (collections s "message") ->
                           docs_have_id (messages_of cid s)).
  { intros s Hs d Hd. apply Hs. unfold messages_of in Hd.
    assert (Hin : In d (List.filter
                          (matches [("consultation_id", VStr cid)])
                          (collections s "message"))).
    { rewrite <- (firstn_skipn 200 (List.filter _ _)).
      apply in_or_app. left. exact Hd. }
    apply filter_In in Hin as [Hin _]. exact Hin. }
  exists (map public_form old), (public_form (stamped st (user_msg cid payload))).
  split; [|split; [|split; [|split]]].
  - rewrite list_messages_cases, (proj1 (ObjectId_whole _ _) Hid).
    rewrite each_with_public_id_all by (apply Hsub, Hall).
    unfold messages_of. fold (of_consultation cid). fold old.
    rewrite Hold. reflexivity.
  - rewrite list_messages_cases, (proj1 (ObjectId_whole _ _) Hid).
    rewrite each_with_public_id_all by (apply Hsub, Hall').
    unfold messages_of. fold (of_consultation cid).
    rewrite Hnew, Hboth, map_app, Hans. reflexivity.
  - rewrite public_form_field by discriminate.
    rewrite stamped_field by discriminate. reflexivity.
  - rewrite public_form_field by discriminate.
    rewrite stamped_field by discriminate. reflexivity.
  - rewrite Hans, public_form_field by discriminate.
    rewrite stamped_field by discriminate. reflexivity.
Qed.

Lemma sparse_store_complete : store_complete sparse_store.
Proof.
  split; intros d Hin; cbn in Hin.
  - destruct Hin as [<-|[]]. eexists. reflexivity.
  - destruct Hin.
Qed.

Lemma sparse_store_answers :
  exists st' answer,
    send_message zero_id (mk_MessageIn "hi") sparse_store = (st', Ok answer).
Proof.
  eexists _, _.
  rewrite (send_message_run zero_id (mk_MessageIn "hi") 0%N
             [ ("_id", VObjectId 0); ("business_name", VStr "Acme");
               ("goal", VStr "grow sales") ]
             (mk_ConsultationCreate "Acme" "" "idea" "grow sales" None)
             sparse_store sparse_store_ok sparse_store_ids_left
             eq_refl eq_refl eq_refl).
  cbv zeta. rewrite with_public_id_cases, stamped_id. reflexivity.
Qed.

Lemma sent_messages_are_listed_witness :
  exists st' answer before user,
    send_message zero_id (mk_MessageIn "hi") sparse_store = (st', Ok answer) /\
    list_messages zero_id sparse_store = (sparse_store, Ok before) /\
    list_messages zero_id st' = (st', Ok (before ++ [user; answer])%list) /\
    dict_get user "role" = Some (VStr "user") /\
    dict_get user "content" = Some (VStr "hi") /\
    dict_get answer "role" = Some (VStr "assistant").
Proof.
  destruct sparse_store_answers as (st' & answer & Hrun).
  destruct (sent_messages_are_listed zero_id (mk_MessageIn "hi") sparse_store
              st' answer sparse_store_ok sparse_store_ids_left
              sparse_store_complete Hrun)
    as (before & user & H).
  - cbn. lia.
  - exists st', answer, before, user. split; [exact Hrun | exact H].
Defined.

(** X9. Beyond the cap a sent message is not listed: once a
    consultation holds 200 messages or more, [list_messages] answers after
    [send_message] exactly as it did before, the answer being the oldest
    200. *)
Theorem full_consultation_hides_new_messages :
  forall consultation_id payload st,
    (200 <= List.length
              (List.filter (matches (of_consultation consultation_id))
                           (collections st "message")))%nat ->
    messages_of consultation_id
      (fst (send_message consultation_id payload st)) =
      messages_of consultation_id st /\
    snd (list_messages consultation_id
           (fst (send_message consultation_id payload st))) =
      snd (list_messages consultation_id st).
Proof.
  intros cid payload st Hfull.
  assert (Hm : messages_of cid (fst (send_message cid payload st)) =
               messages_of cid st).
  { destruct (send_message_appends cid payload st) as [_ (added & Hcoll & _)].
    unfold messages_of. fold (of_consultation cid).
    rewrite Hcoll, filter_app. apply firstn_app_full. exact Hfull. }
  split; [exact Hm|].
  rewrite !list_messages_cases.
  destruct (ObjectId_str cid); [|reflexivity].
  rewrite Hm. apply each_with_public_id_indep.
Qed.

Lemma full_consultation_hides_new_messages_witness :
  messages_of zero_id (fst (send_message zero_id (mk_MessageIn "hi") full_store))
    = messages_of zero_id full_store /\
  snd (list_messages zero_id
         (fst (send_message zero_id (mk_MessageIn "hi") full_store))) =
    snd (list_messages zero_id full_store).
Proof.
  apply (full_consultation_hides_new_messages zero_id (mk_MessageIn "hi")
           full_store).
  apply Nat.leb_le. vm_compute. reflexivity.
Defined.

Lemma meta_of_created :
  forall payload st,
    Schema.ConsultationCreate_validate
      (meta_kwargs (stamped st (Schema.model_dump payload))) = Some payload.
Proof.
  intros payload st. unfold meta_kwargs, dict_get_default.
  rewrite !stamped_field by discriminate.
  destruct payload as [b i s g [n|]]; reflexivity.
Qed.

(** X10. The advice is generated for the consultation as it was
    created: on a well-formed store, [send_message] called with the [id]
    that [create_consultation] returned answers with the assistant message
    of that consultation, whose content is [generate_advice] on the sent
    text and the created payload. *)
Theorem advice_for_created_consultation :
  forall payload message st,
    store_ok st -> ids_left 3 st ->
    exists st1 created id st2 answer,
      create_consultation payload st = (st1, Ok created) /\
      dict_get created "id" = Some (VStr id) /\
      send_message id message st1 = (st2, Ok answer) /\
      dict_get answer "consultation_id" = Some (VStr id) /\
      dict_get answer "role" = Some (VStr "assistant") /\
      dict_get answer "content" =
        Some (VStr (generate_advice (content message) payload)).
Proof.
  intros payload message st Hok Hleft.
  set (doc := stamped st (Schema.model_dump payload)).
  set (st1 := inserted st "consultation" (Schema.model_dump payload)).
  set (id := oid_str (next_oid st)).
  assert (Hcreate : create_consultation payload st = (st1, Ok (public_form doc))).
  { rewrite create_consultation_run
      by (assumption || (unfold ids_left in *; lia)).
    rewrite with_public_id_cases. unfold doc. rewrite stamped_id.
    reflexivity. }
  assert (Hid : ObjectId id = Some (next_oid st))
    by (apply ObjectId_oid_str; unfold ids_left in Hleft; lia).
  assert (Hfind : find_one "consultation" [("_id", VObjectId (next_oid st))] st1
                  = (st1, Ok (Some doc)))
    by (apply refetch_inserted, Hok).
  assert (Hok1 : store_ok st1) by (apply inserted_store_ok, Hok).
  assert (Hleft1 : ids_left 2 st1)
    by (unfold ids_left in *; cbn [st1 inserted next_oid]; lia).
  pose proof (send_message_run id message (next_oid st) doc payload st1
                Hok1 Hleft1 Hid Hfind (meta_of_created payload st)) as Hsend.
  cbv zeta in Hsend. rewrite with_public_id_cases, stamped_id in Hsend.
  eexists st1, (public_form doc), id, _, _.
  split; [exact Hcreate|].
  split; [apply (public_form_id doc _ (stamped_id _ _))|].
  split; [exact Hsend|].
  repeat split; rewrite public_form_field by discriminate;
    rewrite stamped_field by discriminate; reflexivity.
Qed.

Lemma advice_for_created_consultation_witness :
  exists st1 created id st2 answer,
    create_consultation acme_mvp empty_store = (st1, Ok created) /\
    dict_get created "id" = Some (VStr id) /\
    send_message id (mk_MessageIn "hi") st1 = (st2, Ok answer) /\
    dict_get answer "consultation_id" = Some (VStr id) /\
    dict_get answer "role" = Some (VStr "assistant") /\
    dict_get answer "content" = Some (VStr (generate_advice "hi" acme_mvp)).
Proof.
  apply (advice_for_created_consultation acme_mvp (mk_MessageIn "hi")
           empty_store empty_store_ok).
  apply empty_store_ids_left. vm_compute. discriminate.
Defined.

(** X11. A created consultation is listed while there is room: on a
    well-formed store holding fewer than 50 consultations,
    [list_consultations] after [create_consultation] answers with what it
    answered before followed by the created object; on a store holding 50
    or more it answers as it did before. *)
Theorem created_consultation_is_listed :
  forall payload st,
    store_ok st -> ids_left 1 st -> store_complete st ->
    exists st' created before,
      create_consultation payload st = (st', Ok created) /\
      list_consultations st = (st, Ok before) /\
      ((List.length (collections st "consultation") < 50)%nat ->
       list_consultations st' = (st', Ok (before ++ [created])%list)) /\
      ((50 <= List.length (collections st "consultation"))%nat ->
       list_consultations st' = (st', Ok before)).
Proof.
  intros payload st Hok Hleft [Hc Hm].
  set (doc := stamped st (Schema.model_dump payload)).
  set (st' := inserted st "consultation" (Schema.model_dump payload)).
  set (old := collections st "consultation") in *.
  assert (Hsub : forall n l, docs_have_id l -> docs_have_id (firstn n l)).
  { intros n l Hl d Hd. apply Hl.
    rewrite <- (firstn_skipn n l). apply in_or_app. left. exact Hd. }
  assert (Hc' : docs_have_id (old ++ [doc])).
  { intros d Hd. apply in_app_or in Hd as [Hd|[<-|[]]].
    - apply Hc, Hd.
    - eexists. apply stamped_id. }
  exists st', (public_form doc), (map public_form (firstn 50 old)).
  split; [|split; [|split]].
  - rewrite create_consultation_run by assumption.
    rewrite with_public_id_cases. unfold doc. rewrite stamped_id.
    reflexivity.
  - rewrite list_consultations_run, matches_empty_filter. fold old.
    apply each_with_public_id_all, Hsub, Hc.
  - intros Hroom.
    rewrite list_consultations_run, matches_empty_filter.
    unfold st'. rewrite inserted_same. fold old. fold doc. fold st'.
    rewrite each_with_public_id_all by apply Hsub, Hc'.
    destruct (firstn_app_room 50 old [doc]) as [Hboth Hold];
      [cbn; lia|].
    rewrite Hboth, Hold, map_app. reflexivity.
  - intros Hfull.
    rewrite list_consultations_run, matches_empty_filter.
    unfold st'. rewrite inserted_same. fold old. fold doc. fold st'.
    rewrite each_with_public_id_all by apply Hsub, Hc'.
    rewrite (firstn_app_full 50 old [doc] Hfull). reflexivity.
Qed.

Lemma created_consultation_is_listed_witness :
  exists st' created before,
    create_consultation acme sparse_store = (st', Ok created) /\
    list_consultations sparse_store = (sparse_store, Ok before) /\
    ((List.length (collections sparse_store "consultation") < 50)%nat ->
     list_consultations st' = (st', Ok (before ++ [created])%list)) /\
    ((50 <= List.length (collections sparse_store "consultation"))%nat ->
     list_consultations st' = (st', Ok before)).
Proof.
  apply (created_consultation_is_listed acme sparse_store sparse_store_ok).
  - unfold ids_left. vm_compute. discriminate.
  - exact sparse_store_complete.
Defined.

(* ------------------------------------------------------------------ *)
(** ** Further properties: rejected requests and failures *)

Lemma required_str_not_text :
  forall body k, not_text body k -> Schema.required_str body k = None.
Proof.
  intros body k H. unfold Schema.required_str.
  destruct (dict_get body k) as [[]|] eqn:E; try reflexivity.
  exfalso. apply (H s). exact E.
Qed.

(** X12. A request body without a text [business_name], [industry] or
    [goal] is rejected by the create route, and one without a text
    [content] by the send route: the answer is the validation error (422)
    and the store is the one given, no document written. *)
Theorem bodies_without_required_text_rejected :
  forall consultation_id body st,
    (not_text body "business_name" \/ not_text body "industry" \/
     not_text body "goal" ->
     POST_consultations body st = (st, Raised RequestValidationError)) /\
    (not_text body "content" ->
     POST_messages consultation_id body st =
     (st, Raised RequestValidationError)).
Proof.
  intros cid body st. split.
  - intros H. unfold POST_consultations, Schema.ConsultationCreate_validate.
    destruct H as [H|[H|H]]; rewrite (required_str_not_text body _ H);
      repeat match goal with
             | |- context [match ?x with _ => _ end] =>
                 match x with
                 | Schema.required_str _ _ => destruct x
                 | Schema.default_str _ _ _ => destruct x
                 | Schema.optional_str _ _ => destruct x
                 end
             end;
      reflexivity.
  - intros H. unfold POST_messages, Schema.MessageIn_validate.
    rewrite (required_str_not_text body _ H). reflexivity.
Qed.

Lemma bodies_without_required_text_rejected_witness :
  POST_consultations [("business_name", VStr "Acme"); ("goal", VStr "grow")]
    empty_store = (empty_store, Raised RequestValidationError) /\
  POST_messages zero_id [("content", VInt 3)] empty_store =
    (empty_store, Raised RequestValidationError).
Proof.
  split.
  - apply (proj1 (bodies_without_required_text_rejected zero_id
                    [("business_name", VStr "Acme"); ("goal", VStr "grow")]
                    empty_store)).
    right. left. intros s H. discriminate H.
  - apply (proj2 (bodies_without_required_text_rejected zero_id
                    [("content", VInt 3)] empty_store)).
    intros s H. discriminate H.
Defined.




(* ------------------------------------------------------------------ *)
(** ** Further properties: the diagnostic route *)

Lemma take_len : forall s n, (Text.len (Text.take n s) <= n)%nat.
Proof.
  induction s as [|c s IH]; intros n; cbn [Text.take Text.len]; [lia|].
  destruct (Text.is_continuation c) eqn:E; cbn [Text.len]; rewrite ?E.
  - apply IH.
  - destruct n as [|n]; cbn [Text.len]; [lia|]. rewrite E.
    specialize (IH n). lia.
Qed.

Lemma take_prefix : forall s n, exists rest, s = Text.take n s ++ rest.
Proof.
  induction s as [|c s IH]; intros n; cbn [Text.take].
  - exists "". reflexivity.
  - destruct (Text.is_continuation c).
    + destruct (IH n) as [rest Hr]. exists rest. cbn. rewrite <- Hr.
      reflexivity.
    + destruct n as [|n].
      * exists (String c s). reflexivity.
      * destruct (IH n) as [rest Hr]. exists rest. cbn. rewrite <- Hr.
        reflexivity.
Qed.

Lemma take_all : forall s n, (Text.len s <= n)%nat -> Text.take n s = s.
Proof.
  induction s as [|c s IH]; intros n Hn; cbn [Text.take]; [reflexivity|].
  cbn [Text.len] in Hn.
  destruct (Text.is_continuation c).
  - rewrite IH by exact Hn. reflexivity.
  - destruct n as [|n]; [lia|]. rewrite IH by lia. reflexivity.
Qed.

(** What [shown] keeps of an error text: a prefix of at most 50
    characters, the whole text when it has no more. *)
Lemma shown_spec :
  forall e,
    (Text.len (Diagnostics.shown e) <= 50)%nat /\
    (exists rest, e = Diagnostics.shown e ++ rest) /\
    ((Text.len e <= 50)%nat -> Diagnostics.shown e = e).
Proof.
  intros e. unfold Diagnostics.shown. split; [apply take_len|].
  split; [apply take_prefix | apply take_all].
Qed.

(** X14. Whatever the state of the store handle, [test_database]
    returns the same six keys in the same order with [backend] reporting
    that it runs, and [collections] holds at most ten names: the first ten
    that the store listed, when it could be asked and did list them. *)
Theorem test_database_shape :
  forall db,
    map fst (Diagnostics.test_database db) =
      [ "backend"; "database"; "database_url"; "database_name";
        "connection_status"; "collections" ] /\
    dict_get (Diagnostics.test_database db) "backend" =
      Some (VStr "✅ Running") /\
    exists names,
      dict_get (Diagnostics.test_database db) "collections" =
        Some (VList (map VStr names)) /\
      (List.length names <= 10)%nat /\
      (forall h listed,
          db = Some h ->
          (forall e, Diagnostics.name h <> Diagnostics.Failing e) ->
          Diagnostics.list_collection_names h = inr listed ->
          names = firstn 10 listed /\
          dict_get (Diagnostics.test_database db) "database" =
            Some (VStr "✅ Connected & Working")).
Proof.
  intros [[nm [e|listed]]|].
  - destruct nm as [v| |e']; (split; [reflexivity|]); (split; [reflexivity|]);
      exists []; (split; [reflexivity|]); (split; [cbn; lia|]);
      intros h listed' Hdb _ Hl; injection Hdb as <-; discriminate Hl.
  - destruct nm as [v| |e'].
    + split; [reflexivity|]. split; [reflexivity|].
      exists (firstn 10 listed). split; [reflexivity|].
      split; [apply firstn_le_length|].
      intros h listed' Hdb _ Hl. injection Hdb as <-.
      cbn in Hl. injection Hl as <-. split; reflexivity.
    + split; [reflexivity|]. split; [reflexivity|].
      exists (firstn 10 listed). split; [reflexivity|].
      split; [apply firstn_le_length|].
      intros h listed' Hdb _ Hl. injection Hdb as <-.
      cbn in Hl. injection Hl as <-. split; reflexivity.
    + split; [reflexivity|]. split; [reflexivity|].
      exists []. split; [reflexivity|]. split; [cbn; lia|].
      intros h listed' Hdb Hname _. injection Hdb as <-.
      exfalso. apply (Hname e'). reflexivity.
  - split; [reflexivity|]. split; [reflexivity|].
    exists []. split; [reflexivity|]. split; [cbn; lia|].
    intros h listed' Hdb. discriminate Hdb.
Qed.

Lemma test_database_shape_witness :
  exists names,
    dict_get (Diagnostics.test_database (Some busy_db)) "collections" =
      Some (VList (map VStr names)) /\
    List.length names = 10%nat /\
    dict_get (Diagnostics.test_database (Some busy_db)) "database" =
      Some (VStr "✅ Connected & Working").
Proof.
  destruct (test_database_shape (Some busy_db))
    as (_ & _ & names & Hc & _ & Hlisted).
  destruct (Hlisted busy_db
              [ "consultation"; "message"; "c3"; "c4"; "c5"; "c6"; "c7";
                "c8"; "c9"; "c10"; "c11"; "c12" ]
              eq_refl
              (fun e (H : Diagnostics.name busy_db = Diagnostics.Failing e) =>
                 match H in (_ = y)
                       return (match y with
                               | Diagnostics.Absent => True
                               | _ => False
                               end)
                 with eq_refl => I end)
              eq_refl) as [Hn Hd].
  exists names. split; [exact Hc|]. split; [rewrite Hn; reflexivity|exact Hd].
Defined.

(** X15. [test_database] swallows the failures of the store: when
    listing the collections raises, it reports the store as connected,
    [database] carries the first 50 characters of the error after the
    warning prefix and [collections] stays empty; when reading the name of
    the store raises, [database] carries the first 50 characters of the
    error after the error prefix and the store is reported not connected;
    with no store configured the initial response is returned. What is
    carried of the error is a prefix of it of at most 50 characters, and
    all of it when it has no more. *)
Theorem test_database_swallows_errors :
  forall db,
    (forall h e,
        db = Some h ->
        (forall e', Diagnostics.name h <> Diagnostics.Failing e') ->
        Diagnostics.list_collection_names h = inl e ->
        dict_get (Diagnostics.test_database db) "database" =
          Some (VStr ("⚠️ Connected but Error: " ++ Diagnostics.shown e)) /\
        dict_get (Diagnostics.test_database db) "connection_status" =
          Some (VStr "Connected") /\
        dict_get (Diagnostics.test_database db) "collections" =
          Some (VList []) /\
        (Text.len (Diagnostics.shown e) <= 50)%nat /\
        (exists rest, e = Diagnostics.shown e ++ rest) /\
        ((Text.len e <= 50)%nat -> Diagnostics.shown e = e)) /\
    (forall h e,
        db = Some h ->
        Diagnostics.name h = Diagnostics.Failing e ->
        dict_get (Diagnostics.test_database db) "database" =
          Some (VStr ("❌ Error: " ++ Diagnostics.shown e)) /\
        dict_get (Diagnostics.test_database db) "connection_status" =
          Some (VStr "Not Connected") /\
        dict_get (Diagnostics.test_database db) "database_url" =
          Some (VStr "✅ Set") /\
        (Text.len (Diagnostics.shown e) <= 50)%nat /\
        (exists rest, e = Diagnostics.shown e ++ rest) /\
        ((Text.len e <= 50)%nat -> Diagnostics.shown e = e)) /\
    (db = None ->
     Diagnostics.test_database db = Diagnostics.initial_response).
Proof.
  intros db. split; [|split].
  - intros [nm l] e -> Hname Hl. cbn in Hl, Hname. subst l.
    destruct nm as [v| |e'].
    + split; [reflexivity|]. split; [reflexivity|]. split; [reflexivity|].
      apply shown_spec.
    + split; [reflexivity|]. split; [reflexivity|]. split; [reflexivity|].
      apply shown_spec.
    + exfalso. apply (Hname e'). reflexivity.
  - intros [nm l] e -> Hname. cbn in Hname. subst nm.
    split; [reflexivity|]. split; [reflexivity|]. split; [reflexivity|].
    apply shown_spec.
  - intros ->. reflexivity.
Qed.

Lemma test_database_swallows_errors_witness :
  (dict_get (Diagnostics.test_database (Some noisy_db)) "database" =
     Some (VStr ("⚠️ Connected but Error: " ++
                 Diagnostics.shown noisy_error)) /\
   dict_get (Diagnostics.test_database (Some noisy_db)) "connection_status" =
     Some (VStr "Connected") /\
   dict_get (Diagnostics.test_database (Some noisy_db)) "collections" =
     Some (VList []) /\
   (Text.len (Diagnostics.shown noisy_error) <= 50)%nat /\
   (exists rest, noisy_error = Diagnostics.shown noisy_error ++ rest) /\
   ((Text.len noisy_error <= 50)%nat ->
    Diagnostics.shown noisy_error = noisy_error)) /\
  Text.len noisy_error = 60%nat /\
  Diagnostics.shown noisy_error = String.concat "" (repeat "é" 50) /\
  String.length (Diagnostics.shown noisy_error) = 100%nat.
Proof.
  split; [|split; [|split]].
  - apply (proj1 (test_database_swallows_errors (Some noisy_db))
             noisy_db noisy_error).
    + reflexivity.
    + intros e' H. discriminate H.
    + reflexivity.
  - vm_compute. reflexivity.
  - vm_compute. reflexivity.
  - vm_compute. reflexivity.
Defined.

(* ------------------------------------------------------------------ *)
(** ** Further properties: the topics of the advice *)

Lemma table_get_in :
  forall table k topics,
    table_get table k = Some topics -> In topics (map snd table).
Proof.
  induction table as [|[k' v] rest IH]; intros k topics H; [discriminate H|].
  cbn [table_get] in H. cbn [map snd In].
  destruct (String.eqb k' k).
  - injection H as <-. left. reflexivity.
  - right. apply (IH k topics H).
Qed.

(** X16. Whatever the stage, the focus of the advice is one of the four
    rows of the table, so it always holds exactly four topics, and the
    text carries one bullet line for each. *)
Theorem focus_is_a_table_row :
  forall user_text meta,
    In (selected_focus meta) (map snd stage_focus) /\
    List.length (selected_focus meta) = 4%nat /\
    generate_advice user_text meta =
      advice_text (title (industry meta)) (lower (stage meta)) (goal meta)
        user_text
        (join nl
           (map (fun topic =>
                   "- " ++ topic ++
                   ": Consider 1-2 experiments this week to validate assumptions.")
                (selected_focus meta))).
Proof.
  intros user_text meta.
  assert (Hin : In (selected_focus meta) (map snd stage_focus)).
  { unfold selected_focus, focus_of.
    destruct (table_get stage_focus (lower (stage meta))) as [l|] eqn:E.
    - apply (table_get_in stage_focus _ l E).
    - left. reflexivity. }
  split; [exact Hin|]. split; [|reflexivity].
  cbn [stage_focus map snd In] in Hin.
  destruct Hin as [<-|[<-|[<-|[<-|[]]]]]; reflexivity.
Qed.
